(** * Cart routes of the e-commerce backend (server.js)

    A shallow embedding of the five cart handlers of [cartRoutes]
    ([GET /api/cart], [POST /api/cart/add], [PUT /api/cart/update/:productId],
    [DELETE /api/cart/remove/:productId], [DELETE /api/cart/clear]) together
    with the part of the Mongoose schemas they read and write, and the
    properties of the cart that the specification states.

    Modelling choices.
    - The two collections are finite maps keyed by the document [_id]
      (the canonical string of the ObjectId, which is also how a request
      names a product): [users] maps a user id to the [cart] array of that
      user document (the handlers touch no other field of a user), [products]
      maps a product id to the fields of the product the handlers read
      ([name] and [stock]).
    - A JavaScript number is a rational: every double is one, and the
      comparisons of the handlers are exact.  The sum of two numbers is the
      double nearest to the exact sum ([Num.add], round to nearest, ties to
      even), and there is none beyond the largest double, where the sum is an
      infinity.  The [quantity] of a request body is a number or is absent: a
      body with another JSON value there ([null], a string) is not a request
      of the model.
    - A request names a product by the string of its id.  [Product.findById]
      casts that string to an ObjectId; the model looks the string up as it
      is, which is what the cast gives for the canonical string of an id
      ([isObjectIdString]: 24 lower-case hexadecimal digits).
    - A handler is a function from the stored state to the new stored state
      and the response.  [throw] inside the [try] block is the [Throw]
      constructor of a small error monad; the [catch] blocks are [catch_stock]
      (add, update) and [catch_any] (remove, clear).  The document a handler
      mutates is its own copy: only [user.save()] changes the stored state.
    - [user.save()] runs the schema validators of the document ([quantity] has
      [min: 1]) and writes the document only when they pass.
    - [jwt.verify] is a parameter of the middleware: a function from a token
      to the payload it carries, if it verifies.
    - Of the client (App.jsx) the file has the functions that compute: the
      mapping of an answered cart to [cartItems], [getTotalCartItems] with
      the cart badge of the header, and the quantity selector of the product
      page. *)

From Stdlib Require Import QArith Qcanon Ascii Lqa.
From stdpp Require Import gmap strings list fin_maps.

(** ** JavaScript numbers *)

Module Num.

(** [x < y] on numbers. *)
Definition ltb (x y : Q) : bool :=
  match (x ?= y)%Q with Lt => true | _ => false end.

(** [x <= y] on numbers. *)
Definition leb (x y : Q) : bool :=
  match (x ?= y)%Q with Gt => false | _ => true end.

(** [x === y] on numbers. *)
Definition eqb (x y : Q) : bool :=
  match (x ?= y)%Q with Eq => true | _ => false end.

(** [Number.isInteger]: used by the statements only, no handler calls it. *)
Definition isInteger (x : Q) : bool :=
  (Qnum x mod Z.pos (Qden x) =? 0)%Z.

(** [floor (log2 (n / d))] for [n > 0]. *)
Definition floor_log2 (n : Z) (d : positive) : Z :=
  let k := (Z.log2 n - Z.log2 (Z.pos d))%Z in
  if (if (0 <=? k)%Z then (Z.pos d * 2 ^ k <=? n)%Z else (Z.pos d <=? n * 2 ^ (- k))%Z)
  then k else (k - 1)%Z.

(** The integer nearest to [n / d], the even one of two equally near. *)
Definition round_half_even (n d : Z) : Z :=
  let qt := (n / d)%Z in
  let r := (n mod d)%Z in
  match (2 * r ?= d)%Z with
  | Lt => qt
  | Gt => (qt + 1)%Z
  | Eq => if Z.even qt then qt else (qt + 1)%Z
  end.

(** The double nearest to a rational (binary64: 53 bits, exponents down to
    -1074, round to nearest, ties to even); [None] where the nearest double
    is an infinity. *)
Definition round (x : Q) : option Q :=
  let x := Qred x in
  let n := Qnum x in
  let d := Qden x in
  if (n =? 0)%Z then Some 0%Q else
  let a := Z.abs n in
  let e := Z.max (floor_log2 a d - 52) (-1074) in
  if (0 <=? e)%Z then
    let m := round_half_even a (Z.pos d * 2 ^ e) in
    if (2 ^ 1024 <=? m * 2 ^ e)%Z then None
    else Some (inject_Z (Z.sgn n * m * 2 ^ e))
  else
    let m := round_half_even (a * 2 ^ (- e)) (Z.pos d) in
    Some (Qred (Z.sgn n * m # Z.to_pos (2 ^ (- e)))).

(** [x + y] on numbers; [None] is an infinity. *)
Definition add (x y : Q) : option Q := round (x + y).

(** Up to 2^53 every integer is a double: used by the statements only. *)
Definition exact : Q := inject_Z (2 ^ 53).

End Num.

(** ** Documents *)

(** The fields of a product document the cart routes read. *)
Record Product := { name : string; stock : Q }.

(** An element of [userSchema.cart]. *)
Record CartItem := { productId : string; quantity : Q }.

(** An element of a populated cart: [productId] is replaced by the product
    document (its [_id] and fields), or by [null] when there is none. *)
Record PopulatedItem := { product : option (string * Product); pquantity : Q }.

(** The stored state: the [User] and [Product] collections. *)
Record Db := {
  users : gmap string (list CartItem);
  products : gmap string Product
}.

(** ** Responses and exceptions *)

Inductive Missing := NoUser | NoCartItem | NoProduct.

Inductive Response :=
| Ok (cart : list PopulatedItem)     (* res.json(user.cart) *)
| Cleared                            (* res.json({ message: 'Cart cleared successfully!' }) *)
| InvalidArgument                    (* status 400, the validation message *)
| NotFound (what : Missing)          (* status 404 *)
| InsufficientStock (product_name : string) (available : Q)
                                     (* status 400, the message of the thrown Error *)
| Internal.                          (* status 500 *)

Definition status (r : Response) : nat :=
  match r with
  | Ok _ | Cleared => 200
  | InvalidArgument | InsufficientStock _ _ => 400
  | NotFound _ => 404
  | Internal => 500
  end.

Inductive Exn :=
| StockError (product_name : string) (available : Q)
    (* new Error(`Insufficient stock for ${product.name}. Only ${product.stock} available.`) *)
| ValidationError.
    (* thrown by user.save() when a schema validator fails *)

Inductive Outcome (A : Type) :=
| Return (a : A)
| Throw (e : Exn).
Arguments Return {A} a.
Arguments Throw {A} e.

#[global] Instance Outcome_bind : MBind Outcome := fun A B k m =>
  match m with
  | Return a => k a
  | Throw e => Throw e
  end.

(** ** Schema and storage *)

(** The validators of an element of [userSchema.cart]: [quantity] has [min: 1]
    ([productId] is [required]; an item of the model always carries one). *)
Definition validate_item (item : CartItem) : bool :=
  Num.leb 1 (quantity item).

Definition validate (cart : list CartItem) : bool :=
  forallb validate_item cart.

(** The write of the user document [u] with its cart. *)
Definition store (u : string) (cart : list CartItem) (db : Db) : Db :=
  {| users := <[u := cart]> (users db); products := products db |}.

(** [await user.save()]: validation, then the write of the document. *)
Definition save (u : string) (cart : list CartItem) (db : Db) : Outcome Db :=
  if validate cart then Return (store u cart db) else Throw ValidationError.

(** [populate('cart.productId')]. *)
Definition populate_item (db : Db) (item : CartItem) : PopulatedItem :=
  {| product := (fun p => (productId item, p)) <$> products db !! productId item;
     pquantity := quantity item |}.

Definition populate (db : Db) (cart : list CartItem) : list PopulatedItem :=
  populate_item db <$> cart.

(** [item.productId.toString() === productId]. *)
Definition is_product (pid : string) (item : CartItem) : bool :=
  String.eqb (productId item) pid.

(** [Array.prototype.findIndex]; [None] is the result [-1]. *)
Fixpoint findIndex {A} (f : A -> bool) (l : list A) : option nat :=
  match l with
  | [] => None
  | x :: l' => if f x then Some 0 else S <$> findIndex f l'
  end.

(** ** GET /api/cart *)

Definition getCart (u : string) (db : Db) : Db * Response :=
  match users db !! u with
  | Some cart => (db, Ok (populate db cart))
  | None => (db, NotFound NoUser)
  end.

(** The [catch] block shared by the add and update handlers:
    [error.message.includes('Insufficient stock')] answers 400 with the
    message, everything else answers 500.  Nothing was saved. *)
Definition catch_stock (db : Db) (m : Outcome (Db * Response)) : Db * Response :=
  match m with
  | Return r => r
  | Throw (StockError n s) => (db, InsufficientStock n s)
  | Throw ValidationError => (db, Internal)
  end.

(** The [catch] block of the remove and clear handlers: always 500. *)
Definition catch_any (db : Db) (m : Outcome (Db * Response)) : Db * Response :=
  match m with
  | Return r => r
  | Throw _ => (db, Internal)
  end.

(** ** POST /api/cart/add *)

(** The callback of [user.cart.map]: [found] is the captured [itemFound]. *)
Definition add_item (product : Product) (pid : string) (q : Q)
    (found : bool) (item : CartItem) : Outcome (bool * CartItem) :=
  if is_product pid item then
    match Num.add (quantity item) q with
    | Some total =>
        if Num.ltb (stock product) total
        then Throw (StockError (name product) (stock product))
        else Return (true, {| productId := productId item; quantity := total |})
    | None =>
        (* q is positive here: the sum is +Infinity, above every stock *)
        Throw (StockError (name product) (stock product))
    end
  else Return (found, item).

(** [user.cart.map(item => ...)], left to right, stopping at the first throw. *)
Fixpoint add_map (product : Product) (pid : string) (q : Q)
    (found : bool) (cart : list CartItem) : Outcome (bool * list CartItem) :=
  match cart with
  | [] => Return (found, [])
  | item :: rest =>
      '(found1, item1) ← add_item product pid q found item;
      '(found2, rest1) ← add_map product pid q found1 rest;
      Return (found2, item1 :: rest1)
  end.

(** The body of the [try] block. *)
Definition add_body (u pid : string) (q : Q) (cart : list CartItem)
    (product : Product) (db : Db) : Outcome (Db * Response) :=
  '(itemFound, cart1) ← add_map product pid q false cart;
  cart2 ← (if negb itemFound then
             if Num.ltb (stock product) q
             then Throw (StockError (name product) (stock product))
             else Return (cart1 ++ [{| productId := pid; quantity := q |}])
           else Return cart1);
  db1 ← save u cart2 db;
  Return (db1, Ok (populate db1 cart2)).

(** [productId] and [quantity] are the fields of [req.body]; [None] is
    [undefined], a field the body does not have.  [products db !! pid] is
    [Product.findById(productId)] for the canonical string of an id; for
    another spelling of an id, or a string that is no id, the cast of
    [findById] makes the code differ (see the modelling choices), and the
    statements that depend on it ask for [isObjectIdString]. *)
Definition addToCart (u : string) (productId : option string)
    (quantity : option Q) (db : Db) : Db * Response :=
  match productId, quantity with
  | Some pid, Some q =>
      if String.eqb pid "" || Num.leb q 0 then (db, InvalidArgument) else
      match users db !! u with
      | None => (db, NotFound NoUser)
      | Some cart =>
          match products db !! pid with
          | None => (db, NotFound NoProduct)
          | Some product => catch_stock db (add_body u pid q cart product db)
          end
      end
  | _, _ => (db, InvalidArgument)
  end.

(** ** PUT /api/cart/update/:productId *)

Definition set_quantity (q : Q) (item : CartItem) : CartItem :=
  {| productId := productId item; quantity := q |}.

Definition update_body (u : string) (q : Q) (cart : list CartItem)
    (itemIndex : nat) (product : Product) (db : Db) : Outcome (Db * Response) :=
  cart1 ← (if Num.eqb q 0 then Return (delete itemIndex cart)
           else if Num.ltb (stock product) q
                then Throw (StockError (name product) (stock product))
                else Return (alter (set_quantity q) itemIndex cart));
  db1 ← save u cart1 db;
  Return (db1, Ok (populate db1 cart1)).

(** [pid] is [req.params.productId], [quantity] the field of [req.body]:
    a number, or [None] for a body without the field.  A body whose
    [quantity] is [null] is no request of the model: the guard below, unlike
    the one of the add handler, lets [null] through. *)
Definition updateQuantity (u pid : string) (quantity : option Q) (db : Db)
    : Db * Response :=
  match quantity with
  | None => (db, InvalidArgument)
  | Some q =>
      if Num.ltb q 0 then (db, InvalidArgument) else
      match users db !! u with
      | None => (db, NotFound NoUser)
      | Some cart =>
          match findIndex (is_product pid) cart with
          | None => (db, NotFound NoCartItem)
          | Some itemIndex =>
              match products db !! pid with
              | None => (db, NotFound NoProduct)
              | Some product =>
                  catch_stock db (update_body u q cart itemIndex product db)
              end
          end
      end
  end.

(** ** DELETE /api/cart/remove/:productId *)

Definition removeFromCart (u pid : string) (db : Db) : Db * Response :=
  match users db !! u with
  | None => (db, NotFound NoUser)
  | Some cart =>
      catch_any db
        (let cart1 := filter (fun item => productId item <> pid) cart in
         db1 ← save u cart1 db;
         Return (db1, Ok (populate db1 cart1)))
  end.

(** ** DELETE /api/cart/clear *)

Definition clearCart (u : string) (db : Db) : Db * Response :=
  match users db !! u with
  | None => (db, NotFound NoUser)
  | Some _ =>
      catch_any db (db1 ← save u [] db; Return (db1, Cleared))
  end.

(** ** The five operations of one authenticated user *)

Inductive Request :=
| GetCart
| AddToCart (productId : option string) (quantity : option Q)
| UpdateQuantity (productId : string) (quantity : option Q)
| RemoveFromCart (productId : string)
| ClearCart.

Definition handle (u : string) (r : Request) (db : Db) : Db * Response :=
  match r with
  | GetCart => getCart u db
  | AddToCart pid q => addToCart u pid q db
  | UpdateQuantity pid q => updateQuantity u pid q db
  | RemoveFromCart pid => removeFromCart u pid db
  | ClearCart => clearCart u db
  end.

(** A sequence of requests, each of an authenticated user, in order. *)
Fixpoint run (reqs : list (string * Request)) (db : Db) : Db :=
  match reqs with
  | [] => db
  | (u, r) :: reqs' => run reqs' (handle u r db).1
  end.

(** ** Predicates of the statements *)

(** The schema holds of a cart: every quantity is at least 1. *)
Definition cart_valid (cart : list CartItem) : Prop :=
  Forall (fun item => (1 <= quantity item)%Q) cart.

(** The schema holds of every stored cart. *)
Definition db_valid (db : Db) : Prop :=
  forall u cart, users db !! u = Some cart -> cart_valid cart.

(** Every stored quantity is a positive integer. *)
Definition db_integral (db : Db) : Prop :=
  forall u cart, users db !! u = Some cart ->
    Forall (fun item => (0 < quantity item)%Q /\ Num.isInteger (quantity item) = true) cart.

(** The cart has no line for [pid]. *)
Definition no_line (pid : string) (cart : list CartItem) : Prop :=
  forall item, item ∈ cart -> productId item <> pid.

(** A cart is unique by product identity. *)
Definition cart_unique (cart : list CartItem) : Prop :=
  NoDup (productId <$> cart).

(** Every stored cart is unique by product identity. *)
Definition db_unique (db : Db) : Prop :=
  forall u cart, users db !! u = Some cart -> cart_unique cart.

(** What [POST /api/cart/add] does to a line of the cart on success. *)
Definition add_quantity (pid : string) (q : Q) (item : CartItem) : CartItem :=
  if is_product pid item
  then match Num.add (quantity item) q with
       | Some total => {| productId := productId item; quantity := total |}
       | None => item
       end
  else item.

(** The total the add handler computes for a line of quantity [e] is above
    the stock. *)
Definition total_exceeds (stock e q : Q) : Prop :=
  match Num.add e q with
  | Some total => (stock < total)%Q
  | None => True
  end.

(** The total the add handler computes for a line of quantity [e] is a
    number the schema and the stock admit. *)
Definition total_admitted (stock e q : Q) : Prop :=
  exists total, Num.add e q = Some total /\ (1 <= total)%Q /\ (total <= stock)%Q.

(** The canonical string of an ObjectId, as [toString] gives it and the API
    answers it: 24 lower-case hexadecimal digits. *)
Definition is_lower_hex (c : Ascii.ascii) : bool :=
  let n := Ascii.nat_of_ascii c in
  ((48 <=? n)%nat && (n <=? 57)%nat) || ((97 <=? n)%nat && (n <=? 102)%nat).

Definition isObjectIdString (s : string) : bool :=
  (String.length s =? 24)%nat && forallb is_lower_hex (String.list_ascii_of_string s).

(** A request that names its product, if any, by a canonical id. *)
Definition canonical_request (r : Request) : Prop :=
  match r with
  | AddToCart (Some pid) _ => isObjectIdString pid = true
  | _ => True
  end.

(** The response lists the product [pid]. *)
Definition lists (pid : string) (r : Response) : Prop :=
  match r with
  | Ok cart => exists item p, item ∈ cart /\ product item = Some (pid, p)
  | _ => False
  end.

(** ** Examples of stored states *)

Module Examples.

Definition p1 : Product := {| name := "p1"; stock := 5 |}.

(** One user with an empty cart, one product with stock 5. *)
Definition db0 : Db :=
  {| users := {[ "u"%string := [] ]}; products := {[ "p1"%string := p1 ]} |}.

Definition line (pid : string) (q : Q) : CartItem :=
  {| productId := pid; quantity := q |}.

(** The user has three [p1] in the cart. *)
Definition db3 : Db := store "u" [line "p1" 3] db0.

(** The product of the only cart line has been deleted from the catalog. *)
Definition db_dangling : Db :=
  {| users := {[ "u"%string := [line "p1" 3] ]}; products := ∅ |}.

End Examples.

(** ** Authentication middleware *)

Module Auth.

(** The payload [generateAuthToken] signs and [jwt.verify] returns. *)
Record Claims := { id : string; isAdmin : bool }.

(** The two 401 answers of [protect]: 'no token provided' and 'token failed
    or expired'. *)
Inductive Failure := NoToken | TokenFailed.

(** [String.prototype.split] with a separator of one character: the first
    piece and the pieces after it. *)
Fixpoint split_pieces (sep : Ascii.ascii) (s : string) : string * list string :=
  match s with
  | EmptyString => (EmptyString, [])
  | String c s' =>
      let '(piece, pieces) := split_pieces sep s' in
      if Ascii.eqb c sep then (EmptyString, piece :: pieces)
      else (String c piece, pieces)
  end.

Definition split (sep : Ascii.ascii) (s : string) : list string :=
  let '(piece, pieces) := split_pieces sep s in piece :: pieces.

(** [jwt.verify(token, process.env.JWT_SECRET)], [None] when it throws.
    [verify] is the check of the signature and expiry of a token that is
    there; the library throws 'jwt must be provided' on [undefined] and on
    the empty string. *)
Definition jwt_verify (verify : string -> option Claims) (token : option string)
    : option Claims :=
  match token with
  | Some t => if String.eqb t "" then None else verify t
  | None => None
  end.

(** [protect]: [inr decoded] is [req.user = decoded; next()], [inl] a 401
    answer.  [authorization] is [req.headers.authorization]. *)
Definition protect (verify : string -> option Claims) (authorization : option string)
    : Failure + Claims :=
  match authorization with
  | Some header =>
      if negb (String.eqb header "") && String.prefix "Bearer" header then
        match jwt_verify verify (split " "%char header !! 1%nat) with
        | Some decoded => inr decoded
        | None => inl TokenFailed
        end
      else inl NoToken
  | None => inl NoToken
  end.

(** [authorizeAdmin]: [true] is [next()], [false] the 403 answer.  [user] is
    [req.user]. *)
Definition authorizeAdmin (user : option Claims) : bool :=
  match user with
  | Some decoded => isAdmin decoded
  | None => false
  end.

End Auth.

(** ** The routes behind the middleware *)

Inductive Reply :=
| Unauthorized (why : Auth.Failure)  (* status 401 *)
| Forbidden                          (* status 403, 'Admin access required' *)
| Answer (r : Response)              (* the answer of a cart handler *)
| ProductRemoved                     (* res.json({ message: 'Product successfully removed.' }) *)
| ProductNotFound.                   (* status 404 of the product routes *)

(** The handler of [DELETE /api/products/:id], for the canonical string of
    an id as [pid] (the lookup is [Product.findById(req.params.id)]). *)
Definition deleteProduct (pid : string) (db : Db) : Db * Reply :=
  match products db !! pid with
  | Some _ => ({| users := users db; products := delete pid (products db) |},
               ProductRemoved)
  | None => (db, ProductNotFound)
  end.

(** A route of [cartRoutes]: [protect], then the handler for the user of the
    token ([req.user.id]). *)
Definition cartRoute (verify : string -> option Auth.Claims)
    (authorization : option string) (r : Request) (db : Db) : Db * Reply :=
  match Auth.protect verify authorization with
  | inl why => (db, Unauthorized why)
  | inr decoded =>
      let '(db1, response) := handle (Auth.id decoded) r db in (db1, Answer response)
  end.

(** [productRoutes.delete('/:id', protect, authorizeAdmin, ...)]. *)
Definition deleteProductRoute (verify : string -> option Auth.Claims)
    (authorization : option string) (pid : string) (db : Db) : Db * Reply :=
  match Auth.protect verify authorization with
  | inl why => (db, Unauthorized why)
  | inr decoded =>
      if Auth.authorizeAdmin (Some decoded) then deleteProduct pid db
      else (db, Forbidden)
  end.

(** ** The client (App.jsx) *)

Module Client.

(** An element of [cartItems]: the fields of the product spread into it
    (those the model of a product has), [quantity] and [id]. *)
Record CartItem := { id : string; name : string; stock : Q; quantity : Q }.

(** The callback of [data.map] in the cart functions:
    [{ ...item.productId, quantity: item.quantity, id: item.productId._id }].
    [None] is the TypeError of [item.productId._id] on [null]. *)
Definition toCartItem (item : PopulatedItem) : option CartItem :=
  match product item with
  | Some (pid, Build_Product product_name product_stock) =>
      Some {| id := pid; name := product_name; stock := product_stock;
              quantity := pquantity item |}
  | None => None
  end.

(** [data.map(item => ...)]: the first throw ends it. *)
Definition toCartItems (data : list PopulatedItem) : option (list CartItem) :=
  mapM toCartItem data.

(** The value of a sum of numbers: a number or an infinity. *)
Inductive Total := Finite (total : Q) | PlusInfinity | MinusInfinity.

(** [total + item.quantity]; an infinity plus a number is that infinity. *)
Definition plus (total : Total) (quantity : Q) : Total :=
  match total with
  | Finite t =>
      match Num.add t quantity with
      | Some s => Finite s
      | None => if Num.ltb 0 (t + quantity) then PlusInfinity else MinusInfinity
      end
  | PlusInfinity => PlusInfinity
  | MinusInfinity => MinusInfinity
  end.

(** [getTotalCartItems]:
    [cartItems.reduce((total, item) => total + item.quantity, 0)]. *)
Definition getTotalCartItems (cartItems : list CartItem) : Total :=
  fold_left (fun total item => plus total (quantity item)) cartItems (Finite 0).

(** [getTotalCartItems() > 0] of the [Header]: the badge with the count of
    the cart link is rendered. *)
Definition badge (cartItems : list CartItem) : bool :=
  match getTotalCartItems cartItems with
  | Finite t => Num.ltb 0 t
  | PlusInfinity => true
  | MinusInfinity => false
  end.

(** [Math.max] and [Math.min] of two numbers. *)
Definition max (x y : Q) : Q := if Num.ltb x y then y else x.
Definition min (x y : Q) : Q := if Num.ltb y x then y else x.

(** The quantity selector of [ProductDetailPage]: the two buttons. *)
Inductive Click := Minus | Plus.

(** [disabled={quantity >= product.stock}] of the plus button. *)
Definition plusDisabled (stock quantity : Q) : bool := Num.leb stock quantity.

(** The [onClick] of a button; a click on a disabled button does nothing. *)
Definition click (stock : Q) (quantity : Q) (c : Click) : Q :=
  match c with
  | Minus => max 1 (quantity - 1)
  | Plus => if plusDisabled stock quantity then quantity
            else min stock (quantity + 1)
  end.

(** The selector starts at 1 ([useState(1)]). *)
Definition clicks (stock : Q) (cs : list Click) : Q :=
  fold_left (click stock) cs 1%Q.

(** [disabled={product.stock === 0 || quantity > product.stock}] of the
    'Add to Cart' button. *)
Definition addDisabled (stock quantity : Q) : bool :=
  Num.eqb stock 0 || Num.ltb stock quantity.

End Client.

(** ** Examples of tokens *)

Module Tokens.

(** A verifier that accepts two tokens: one of the user [u], one of an
    administrator. *)
Definition verify (token : string) : option Auth.Claims :=
  if String.eqb token "tok-u" then Some {| Auth.id := "u"; Auth.isAdmin := false |}
  else if String.eqb token "tok-admin"
       then Some {| Auth.id := "admin"; Auth.isAdmin := true |}
       else None.

End Tokens.

(** ** Examples with ObjectId strings *)

Module Hex.

Definition p : string := "64b7f0c2a1d3e4f5a6b7c8d9".
Definition gone : string := "64b7f0c2a1d3e4f5a6b7c8da".

(** One user with an empty cart, one product of stock 5 under an ObjectId
    string; [gone] is the id of no product. *)
Definition db : Db :=
  {| users := {[ "u"%string := [] ]}; products := {[ p := Examples.p1 ]} |}.

(** The same with 3 of the product in the cart. *)
Definition db3 : Db := store "u" [Examples.line p 3] db.

End Hex.

(** ** Examples at the end of the exact integers *)

Module Big.

(** 2^53: the integers up to it are doubles, 2^53 + 1 is not. *)
Definition two53 : Q := 9007199254740992.

(** The stock is 2^53 and the user has 2^53 in the cart. *)
Definition full : Product := {| name := "p1"; stock := two53 |}.
Definition db_full : Db :=
  {| users := {[ "u"%string := [Examples.line Hex.p two53] ]};
     products := {[ Hex.p := full ]} |}.

(** The stock is 2^53 + 2 and the user has 2^53 in the cart. *)
Definition roomy : Product := {| name := "p1"; stock := two53 + 2 |}.
Definition db_roomy : Db :=
  {| users := {[ "u"%string := [Examples.line Hex.p two53] ]};
     products := {[ Hex.p := roomy ]} |}.

End Big.

(** ** Lemmas on numbers *)

Module NumFacts.

Lemma ltb_lt x y : Num.ltb x y = true <-> (x < y)%Q.
Proof.
  unfold Num.ltb. rewrite Qlt_alt. destruct (x ?= y)%Q; split; congruence.
Qed.

Lemma ltb_ge x y : Num.ltb x y = false <-> (y <= x)%Q.
Proof.
  rewrite <- Bool.not_true_iff_false, ltb_lt. split.
  - apply Qnot_lt_le.
  - apply Qle_not_lt.
Qed.

Lemma leb_le x y : Num.leb x y = true <-> (x <= y)%Q.
Proof.
  unfold Num.leb. rewrite Qle_alt. destruct (x ?= y)%Q; split; congruence.
Qed.

Lemma leb_gt x y : Num.leb x y = false <-> (y < x)%Q.
Proof.
  rewrite <- Bool.not_true_iff_false, leb_le. split.
  - apply Qnot_le_lt.
  - apply Qlt_not_le.
Qed.

Lemma eqb_eq x y : Num.eqb x y = true <-> (x == y)%Q.
Proof.
  unfold Num.eqb. rewrite Qeq_alt. destruct (x ?= y)%Q; split; congruence.
Qed.

(** A positive integer is at least one. *)
Lemma integer_pos_ge_1 x : Num.isInteger x = true -> (0 < x)%Q -> (1 <= x)%Q.
Proof.
  destruct x as [n d]. unfold Num.isInteger, Qlt, Qle. cbn [Qnum Qden].
  intros Hm Hp. apply Z.eqb_eq in Hm.
  apply Z.mod_divide in Hm; [|lia].
  destruct Hm as [k Hk]. subst n.
  assert (Hk : (1 <= k)%Z) by nia. nia.
Qed.

Lemma round_half_even_1 n : Num.round_half_even n 1 = n.
Proof.
  unfold Num.round_half_even. rewrite Z.div_1_r, Z.mod_1_r. reflexivity.
Qed.

(** An integer is the rational of an integer over 1, and reduces to it. *)
Lemma integer_Qred x :
  Num.isInteger x = true -> exists k, Qred x = k # 1 /\ (x == k # 1)%Q.
Proof.
  destruct x as [n d]. unfold Num.isInteger. cbn [Qnum Qden]. intros H.
  apply Z.eqb_eq in H. apply Z.mod_divide in H; [|lia]. destruct H as [k Hk].
  exists k.
  assert (E : (n # d == k # 1)%Q).
  { unfold Qeq. cbn [Qnum Qden]. lia. }
  split; [|exact E].
  rewrite (Qred_complete _ _ E). apply Qred_identity. cbn [Qnum Qden].
  apply Z.gcd_1_r.
Qed.

Lemma floor_log2_integer a : (0 < a)%Z -> Num.floor_log2 a 1 = Z.log2 a.
Proof.
  intros Ha. unfold Num.floor_log2.
  change (Z.log2 1) with 0%Z. rewrite Z.sub_0_r.
  pose proof (Z.log2_nonneg a) as Hl.
  destruct (0 <=? Z.log2 a)%Z eqn:E; [|apply Z.leb_gt in E; lia].
  pose proof (Z.log2_spec a Ha) as [H1 _].
  assert (H : (1 * 2 ^ Z.log2 a <=? a)%Z = true) by (apply Z.leb_le; lia).
  rewrite H. reflexivity.
Qed.

(** Rounding leaves an integer of magnitude up to 2^53 as it is. *)
Lemma round_integer k :
  (- 2 ^ 53 <= k <= 2 ^ 53)%Z ->
  exists y, Num.round (k # 1) = Some y /\ (y == k # 1)%Q.
Proof.
  intros Hk. unfold Num.round.
  assert (Er : Qred (k # 1) = k # 1).
  { apply Qred_identity. cbn [Qnum Qden]. apply Z.gcd_1_r. }
  rewrite Er. cbn [Qnum Qden].
  destruct (k =? 0)%Z eqn:E0.
  { apply Z.eqb_eq in E0. subst k. exists 0%Q. split; reflexivity. }
  apply Z.eqb_neq in E0.
  assert (Ha : (0 < Z.abs k)%Z) by lia.
  assert (Hb : (Z.abs k <= 2 ^ 53)%Z) by lia.
  rewrite (floor_log2_integer _ Ha).
  set (a := Z.abs k) in *. set (L := Z.log2 a).
  pose proof (Z.log2_nonneg a) as HL0. fold L in HL0.
  pose proof (Z.log2_spec a Ha) as [HL1 HL2]. fold L in HL1, HL2.
  assert (HL : (L <= 53)%Z).
  { destruct (Z.le_gt_cases L 53) as [H|H]; [exact H|].
    assert (H54 : (2 ^ 54 <= 2 ^ L)%Z) by (apply Z.pow_le_mono_r; lia).
    assert (H53 : (2 ^ 53 < 2 ^ 54)%Z) by reflexivity. lia. }
  assert (Hsgn : (Z.sgn k * a = k)%Z) by (unfold a; lia).
  rewrite Z.max_l by lia.
  destruct (0 <=? L - 52)%Z eqn:Ee.
  - apply Z.leb_le in Ee.
    assert (HLc : L = 52%Z \/ L = 53%Z) by lia.
    destruct HLc as [HLc | HLc]; rewrite HLc in *.
    + change (52 - 52)%Z with 0%Z. change (Z.pos 1 * 2 ^ 0)%Z with 1%Z.
      rewrite round_half_even_1.
      assert (Ho : (2 ^ 1024 <=? a * 2 ^ 0)%Z = false).
      { apply Z.leb_gt. change (2 ^ 0)%Z with 1%Z. rewrite Z.mul_1_r.
        eapply Z.le_lt_trans; [exact Hb|]. reflexivity. }
      rewrite Ho. eexists. split; [reflexivity|].
      unfold Qeq, inject_Z. cbn [Qnum Qden]. change (2 ^ 0)%Z with 1%Z. lia.
    + assert (Ea : a = (2 ^ 53)%Z).
      { change (Z.succ 53) with 54%Z in HL2. lia. }
      rewrite Ea in *. change (53 - 52)%Z with 1%Z.
      assert (Em : Num.round_half_even (2 ^ 53) (Z.pos 1 * 2 ^ 1) = (2 ^ 52)%Z)
        by (vm_compute; reflexivity).
      rewrite Em.
      assert (Ho : (2 ^ 1024 <=? 2 ^ 52 * 2 ^ 1)%Z = false) by (vm_compute; reflexivity).
      rewrite Ho. eexists. split; [reflexivity|].
      unfold Qeq, inject_Z. cbn [Qnum Qden].
      assert (E2 : (2 ^ 52 * 2 ^ 1 = 2 ^ 53)%Z) by (vm_compute; reflexivity).
      rewrite <- Hsgn at 2. rewrite <- E2. ring.
  - apply Z.leb_gt in Ee. rewrite round_half_even_1.
    eexists. split; [reflexivity|].
    rewrite Qred_correct.
    assert (Hp : (0 < 2 ^ (- (L - 52)))%Z) by (apply Z.pow_pos_nonneg; lia).
    unfold Qeq. cbn [Qnum Qden]. rewrite Z2Pos.id by exact Hp.
    rewrite (Z.mul_assoc (Z.sgn k)), Hsgn. lia.
Qed.

(** Two sums as doubles: 0.1 + 0.2 is 0.30000000000000004, the double above
    the one nearest to 0.3, and 5 + 1e-17 is 5. *)
Lemma add_tenths :
  Num.add (3602879701896397 # 36028797018963968) (3602879701896397 # 18014398509481984)
    = Some (1351079888211149 # 4503599627370496)
  /\ Num.round (3 # 10) = Some (5404319552844595 # 18014398509481984).
Proof. split; vm_compute; reflexivity. Qed.

Lemma add_absorbs :
  Num.add 5 (6490371073168535 # 649037107316853453566312041152512) = Some 5%Q.
Proof. vm_compute. reflexivity. Qed.

Lemma round_Qred x : Num.round (Qred x) = Num.round x.
Proof. unfold Num.round. by rewrite Qred_involutive. Qed.

Lemma isInteger_plus x y :
  Num.isInteger x = true -> Num.isInteger y = true -> Num.isInteger (x + y) = true.
Proof.
  destruct x as [n d], y as [n' d']. unfold Num.isInteger. cbn [Qplus Qnum Qden].
  intros H H'. apply Z.eqb_eq in H, H'. apply Z.eqb_eq.
  apply Z.mod_divide in H; [|lia]. apply Z.mod_divide in H'; [|lia].
  destruct H as [k ->], H' as [k' ->].
  apply Z.mod_divide; [lia|]. exists (k + k')%Z. rewrite Pos2Z.inj_mul. ring.
Qed.

(** The sum of two integers is exact when its magnitude is at most 2^53. *)
Lemma add_exact x y :
  Num.isInteger x = true -> Num.isInteger y = true ->
  (- Num.exact <= x + y)%Q -> (x + y <= Num.exact)%Q ->
  exists total, Num.add x y = Some total /\ (total == x + y)%Q.
Proof.
  intros Hx Hy Hlo Hhi. unfold Num.add.
  destruct (integer_Qred (x + y) (isInteger_plus x y Hx Hy)) as (k & Hr & Hk).
  rewrite <- round_Qred, Hr.
  destruct (round_integer k) as (t & Ht & Et).
  - rewrite Hk in Hlo, Hhi. unfold Num.exact, Qle, Qopp, inject_Z in Hlo, Hhi.
    cbn [Qnum Qden] in Hlo, Hhi. lia.
  - exists t. split; [exact Ht|]. by rewrite Et, Hk.
Qed.

Lemma round_half_even_ge n d : (n / d <= Num.round_half_even n d)%Z.
Proof. unfold Num.round_half_even. repeat case_match; lia. Qed.

(** [floor_log2] from below, for a rational of at least 1. *)
Lemma floor_log2_lower n d :
  (Z.pos d <= n)%Z ->
  (0 <= Num.floor_log2 n d)%Z /\ (Z.pos d * 2 ^ Num.floor_log2 n d <= n)%Z.
Proof.
  intros Hn. unfold Num.floor_log2.
  assert (Hd : (0 < Z.pos d)%Z) by lia.
  assert (Hk : (0 <= Z.log2 n - Z.log2 (Z.pos d))%Z).
  { pose proof (Z.log2_le_mono (Z.pos d) n Hn). lia. }
  set (k := (Z.log2 n - Z.log2 (Z.pos d))%Z) in *. cbv zeta.
  destruct (0 <=? k)%Z eqn:E0; [|apply Z.leb_gt in E0; lia].
  destruct (Z.pos d * 2 ^ k <=? n)%Z eqn:Et.
  - apply Z.leb_le in Et. by split.
  - apply Z.leb_gt in Et.
    assert (Hk1 : (1 <= k)%Z).
    { destruct (Z.eq_dec k 0%Z) as [Ek|Ek]; [|lia].
      rewrite Ek in Et. change (2 ^ 0)%Z with 1%Z in Et. lia. }
    split; [lia|].
    pose proof (Z.log2_spec (Z.pos d) Hd) as [_ Hd2].
    pose proof (Z.log2_spec n ltac:(lia)) as [Hn1 _].
    pose proof (Z.log2_nonneg (Z.pos d)) as Hl0.
    assert (Ep : (2 ^ Z.succ (Z.log2 (Z.pos d)) * 2 ^ (k - 1) = 2 ^ Z.log2 n)%Z).
    { rewrite <- Z.pow_add_r by lia. f_equal. unfold k. lia. }
    assert (Hpos : (0 < 2 ^ (k - 1))%Z) by (apply Z.pow_pos_nonneg; lia).
    nia.
Qed.

(** The double nearest to a rational of at least 1 is at least 1. *)
Lemma round_ge_1 x r : (1 <= x)%Q -> Num.round x = Some r -> (1 <= r)%Q.
Proof.
  intros Hx. unfold Num.round.
  assert (Hx' : (1 <= Qred x)%Q) by by rewrite Qred_correct.
  destruct (Qred x) as [n d]. cbn [Qnum Qden].
  assert (Hn : (Z.pos d <= n)%Z).
  { unfold Qle in Hx'. cbn [Qnum Qden] in Hx'. lia. }
  destruct (n =? 0)%Z eqn:E0; [apply Z.eqb_eq in E0; lia|].
  destruct (floor_log2_lower n d Hn) as [Hf0 Hf].
  rewrite (Z.abs_eq n) by lia.
  assert (Hs : Z.sgn n = 1%Z) by (apply Z.sgn_pos; lia). rewrite Hs.
  set (fl := Num.floor_log2 n d) in *.
  rewrite Z.max_l by lia.
  assert (H52 : (0 < 2 ^ 52)%Z) by reflexivity.
  destruct (0 <=? fl - 52)%Z eqn:Ee.
  - apply Z.leb_le in Ee.
    assert (He : (0 < 2 ^ (fl - 52))%Z) by (apply Z.pow_pos_nonneg; lia).
    assert (Hm : (2 ^ 52 <= Num.round_half_even n (Z.pos d * 2 ^ (fl - 52)))%Z).
    { eapply Z.le_trans; [|apply round_half_even_ge].
      apply Z.div_le_lower_bound; [lia|].
      assert (Ep : (2 ^ (fl - 52) * 2 ^ 52 = 2 ^ fl)%Z).
      { rewrite <- Z.pow_add_r by lia. f_equal. lia. }
      rewrite <- Z.mul_assoc, Ep. exact Hf. }
    destruct (_ <=? _)%Z; [done|]. intros [= <-].
    unfold Qle, inject_Z. cbn [Qnum Qden]. nia.
  - apply Z.leb_gt in Ee.
    assert (He : (0 < 2 ^ (- (fl - 52)))%Z) by (apply Z.pow_pos_nonneg; lia).
    assert (Ep : (2 ^ fl * 2 ^ (- (fl - 52)) = 2 ^ 52)%Z).
    { rewrite <- Z.pow_add_r by lia. f_equal. lia. }
    assert (Hm : (2 ^ 52 <= Num.round_half_even (n * 2 ^ (- (fl - 52))) (Z.pos d))%Z).
    { eapply Z.le_trans; [|apply round_half_even_ge].
      apply Z.div_le_lower_bound; [lia|]. rewrite <- Ep. nia. }
    assert (Hle : (2 ^ (- (fl - 52)) <= 2 ^ 52)%Z).
    { apply Z.pow_le_mono_r; lia. }
    intros [= <-]. rewrite Qred_correct.
    unfold Qle. cbn [Qnum Qden]. rewrite Z2Pos.id by exact He. lia.
Qed.

End NumFacts.

(** ** Lemmas on the model *)

Section Model.

Implicit Types (db : Db) (cart : list CartItem) (item : CartItem).
Implicit Types (u pid : string) (q : Q) (product : Product).

Lemma is_product_true pid item : is_product pid item = true <-> productId item = pid.
Proof. apply String.eqb_eq. Qed.

Lemma is_product_false pid item : is_product pid item = false <-> productId item <> pid.
Proof. apply String.eqb_neq. Qed.

Lemma validate_spec cart : validate cart = true <-> cart_valid cart.
Proof.
  unfold validate, cart_valid. rewrite forallb_forall, Forall_forall.
  split; intros H x Hx.
  - apply NumFacts.leb_le, H. by apply list_elem_of_In.
  - apply NumFacts.leb_le, H. by apply list_elem_of_In.
Qed.

Lemma save_valid u cart db : cart_valid cart -> save u cart db = Return (store u cart db).
Proof. intros H. unfold save. apply validate_spec in H. by rewrite H. Qed.

Lemma store_id db u cart : users db !! u = Some cart -> store u cart db = db.
Proof.
  intros Hu. destruct db as [us ps]. unfold store. simpl in *.
  by rewrite insert_id.
Qed.

Lemma store_store db u cart cart' :
  store u cart (store u cart' db) = store u cart db.
Proof. unfold store. simpl. by rewrite insert_insert_eq. Qed.

Lemma store_lookup db u cart : users (store u cart db) !! u = Some cart.
Proof. apply lookup_insert_eq. Qed.

Lemma no_line_existsb pid cart : no_line pid cart <-> existsb (is_product pid) cart = false.
Proof.
  unfold no_line. induction cart as [|item cart IH]; simpl.
  - split; [done|]. intros _ x Hx. by apply elem_of_nil in Hx.
  - rewrite orb_false_iff, <- IH, is_product_false. split.
    + intros H. split; [apply H; left|]. intros x Hx. apply H. by right.
    + intros [H1 H2] x Hx. apply elem_of_cons in Hx as [->|Hx]; auto.
Qed.

(** The callback of [user.cart.map] on a line for the product. *)
Lemma add_item_product product pid q found item :
  is_product pid item = true ->
  add_item product pid q found item =
    match Num.add (quantity item) q with
    | Some total =>
        if Num.ltb (stock product) total
        then Throw (StockError (name product) (stock product))
        else Return (true, {| productId := productId item; quantity := total |})
    | None => Throw (StockError (name product) (stock product))
    end.
Proof. intros E. unfold add_item. by rewrite E. Qed.

Lemma add_item_other product pid q found item :
  is_product pid item = false ->
  add_item product pid q found item = Return (found, item).
Proof. intros E. unfold add_item. by rewrite E. Qed.

(** [user.cart.map] in the add handler: the flag at the end. *)
Lemma add_map_found product pid q found cart found' cart' :
  add_map product pid q found cart = Return (found', cart') ->
  found' = found || existsb (is_product pid) cart.
Proof.
  revert found found' cart'. induction cart as [|item cart IH]; simpl; intros found found' cart'.
  - intros [= <- <-]. by rewrite orb_false_r.
  - destruct (is_product pid item) eqn:Ep.
    + rewrite add_item_product by done.
      destruct (Num.add (quantity item) q) as [total|]; [|done].
      destruct (Num.ltb _ _); simpl; [done|].
      destruct (add_map product pid q true cart) as [[f c]|] eqn:E; simpl; [|done].
      intros [= <- <-]. apply IH in E. rewrite E. simpl. by rewrite orb_true_r.
    + rewrite add_item_other by done. simpl.
      destruct (add_map product pid q found cart) as [[f c]|] eqn:E; simpl; [|done].
      intros [= <- <-]. by apply IH in E.
Qed.

(** [user.cart.map] in the add handler throws as soon as the total it
    computes for one line for the product is above the stock. *)
Lemma add_map_throw product pid q found cart :
  (exists item, item ∈ cart /\ productId item = pid /\
                total_exceeds (stock product) (quantity item) q) ->
  add_map product pid q found cart = Throw (StockError (name product) (stock product)).
Proof.
  revert found. induction cart as [|item cart IH]; intros found [x (Hx & Hp & Hs)].
  - by apply elem_of_nil in Hx.
  - simpl. destruct (is_product pid item) eqn:Ep.
    + rewrite add_item_product by done.
      destruct (Num.add (quantity item) q) as [total|] eqn:Et; [|done].
      destruct (Num.ltb (stock product) total) eqn:El; simpl; [done|].
      apply elem_of_cons in Hx as [->|Hx].
      * unfold total_exceeds in Hs. rewrite Et in Hs.
        apply NumFacts.ltb_lt in Hs. congruence.
      * rewrite IH; [done|eauto].
    + rewrite add_item_other by done. simpl.
      apply elem_of_cons in Hx as [->|Hx].
      * apply is_product_false in Ep. done.
      * rewrite IH; [done|eauto].
Qed.

(** [user.cart.map] in the add handler succeeds when the total it computes
    for every line for the product is within the stock, and puts that total
    into each of them. *)
Lemma add_map_ok product pid q found cart :
  (forall item, item ∈ cart -> productId item = pid ->
                exists total, Num.add (quantity item) q = Some total /\
                              (total <= stock product)%Q) ->
  add_map product pid q found cart =
    Return (found || existsb (is_product pid) cart, add_quantity pid q <$> cart).
Proof.
  revert found. induction cart as [|item cart IH]; intros found H; simpl.
  - by rewrite orb_false_r.
  - unfold add_quantity at 1.
    destruct (is_product pid item) eqn:Ep.
    + rewrite add_item_product by done.
      destruct (H item) as (total & Et & Hs); [left|by apply is_product_true|].
      rewrite Et. apply NumFacts.ltb_ge in Hs. rewrite Hs. simpl.
      rewrite IH; [|intros; apply H; [by right|done]].
      simpl. by rewrite orb_true_r.
    + rewrite add_item_other by done. simpl.
      rewrite IH; [|intros; apply H; [by right|done]]. done.
Qed.

(** The lines of a cart without the product are not touched by an
    addition. *)
Lemma add_quantity_no_line pid q cart :
  no_line pid cart -> add_quantity pid q <$> cart = cart.
Proof.
  intros Hno. induction cart as [|item cart IH]; [done|]. simpl. f_equal.
  - unfold add_quantity. destruct (is_product pid item) eqn:E; [|done].
    apply is_product_true in E. destruct (Hno item); [left|done].
  - apply IH. intros x Hx. apply Hno. by right.
Qed.

End Model.

(** ** POST /api/cart/add *)

Section Add.

Implicit Types (db : Db) (cart : list CartItem) (item : CartItem).
Implicit Types (u p : string) (q : Q) (product : Product).

(** The guard of the add handler lets a non-empty id and a positive
    quantity through. *)
Lemma add_guard_pass p q :
  p <> ""%string -> (0 < q)%Q -> String.eqb p "" || Num.leb q 0 = false.
Proof.
  intros Hp Hq. apply orb_false_iff. split.
  - by apply String.eqb_neq.
  - by apply NumFacts.leb_gt.
Qed.

Lemma addToCart_unfold db u p q product cart :
  users db !! u = Some cart ->
  products db !! p = Some product ->
  p <> ""%string ->
  (0 < q)%Q ->
  addToCart u (Some p) (Some q) db = catch_stock db (add_body u p q cart product db).
Proof.
  intros Hu Hp Hne Hq. unfold addToCart.
  by rewrite add_guard_pass, Hu, Hp.
Qed.

(** The sum the add handler computes for an integer line and an integer
    quantity is the exact one while it stays within 2^53. *)
Lemma total_exact_exceeds stock e q :
  Num.isInteger e = true -> Num.isInteger q = true ->
  (- Num.exact <= e + q)%Q -> (e + q <= Num.exact)%Q ->
  (stock < e + q)%Q -> total_exceeds stock e q.
Proof.
  intros He Hq Hlo Hhi Hs. unfold total_exceeds.
  destruct (NumFacts.add_exact e q He Hq Hlo Hhi) as (total & -> & Et).
  by rewrite Et.
Qed.

Lemma total_exact_admitted stock e q :
  Num.isInteger e = true -> Num.isInteger q = true ->
  (1 <= e)%Q -> (0 < q)%Q -> (e + q <= Num.exact)%Q ->
  (e + q <= stock)%Q ->
  exists total, Num.add e q = Some total /\ (total == e + q)%Q /\
                (1 <= total)%Q /\ (total <= stock)%Q.
Proof.
  intros He Hq H1 H0 Hhi Hs.
  destruct (NumFacts.add_exact e q He Hq) as (total & Ht & Et); [|done|].
  { apply Qle_trans with (y := 0%Q); [discriminate|]. lra. }
  exists total. split; [done|]. split; [done|]. rewrite Et. split; [lra|done].
Qed.

(** The add handler stores the rounded sum: with 2^53 in the cart and a
    stock of 2^53, adding 1 is answered 200 although 2^53 + 1 exceeds the
    stock, because the sum the handler compares is the double 2^53. *)
Lemma addToCart_rounds_total :
  users Big.db_full !! "u"%string = Some [Examples.line Hex.p Big.two53] /\
  products Big.db_full !! Hex.p = Some Big.full /\
  (0 < 1)%Q /\
  (stock Big.full < Big.two53 + 1)%Q /\
  Num.add Big.two53 1 = Some Big.two53 /\
  addToCart "u" (Some Hex.p) (Some 1%Q) Big.db_full
    = (Big.db_full,
       Ok [{| product := Some (Hex.p, Big.full); pquantity := Big.two53 |}]) /\
  status (addToCart "u" (Some Hex.p) (Some 1%Q) Big.db_full).2 = 200%nat.
Proof.
  split; [reflexivity|]. split; [reflexivity|]. split; [reflexivity|].
  split; [reflexivity|]. split; [vm_compute; reflexivity|].
  split; vm_compute; reflexivity.
Qed.

(** C1 (amended).  For a user [u], a product [p] of the catalog and a
    quantity [q > 0]: if the total the add handler computes for a cart line
    for [p] (the double sum of the line's quantity and [q], which is the
    exact sum for integers while it stays within 2^53), or [q] alone when
    the cart has no line for [p], exceeds [p.stock], then the add handler
    answers [InsufficientStock] and the stored state, hence the cart of [u],
    is the one before the call. *)
Theorem addToCart_insufficient_stock db u p q product cart :
  users db !! u = Some cart ->
  products db !! p = Some product ->
  p <> ""%string ->
  (0 < q)%Q ->
  (exists item, item ∈ cart /\ productId item = p /\
     (total_exceeds (stock product) (quantity item) q
      \/ (Num.isInteger (quantity item) = true /\ Num.isInteger q = true /\
          (- Num.exact <= quantity item + q)%Q /\
          (quantity item + q <= Num.exact)%Q /\
          (stock product < quantity item + q)%Q)))
  \/ (no_line p cart /\ (stock product < q)%Q) ->
  addToCart u (Some p) (Some q) db
    = (db, InsufficientStock (name product) (stock product))
  /\ users (addToCart u (Some p) (Some q) db).1 !! u = Some cart.
Proof.
  intros Hu Hp Hne Hq Hover.
  assert (E : addToCart u (Some p) (Some q) db
              = (db, InsufficientStock (name product) (stock product))).
  { rewrite (addToCart_unfold db u p q product cart) by done.
    unfold add_body. destruct Hover as [(item & Hin & Hpid & Hex) | [Hno Hs]].
    - rewrite add_map_throw; [done|]. exists item. split; [done|]. split; [done|].
      destruct Hex as [Hex | (Hi & Hqi & Hlo & Hhi & Hs)]; [done|].
      by apply total_exact_exceeds.
    - rewrite add_map_ok.
      + apply no_line_existsb in Hno. rewrite Hno. simpl.
        apply NumFacts.ltb_lt in Hs. by rewrite Hs.
      + intros item Hin Hpid. by destruct (Hno item Hin). }
  by rewrite E.
Qed.

Lemma addToCart_insufficient_stock_witness :
  users Hex.db3 !! "u"%string = Some [Examples.line Hex.p 3] /\
  addToCart "u" (Some Hex.p) (Some 3%Q) Hex.db3 = (Hex.db3, InsufficientStock "p1" 5) /\
  users (addToCart "u" (Some Hex.p) (Some 3%Q) Hex.db3).1 !! "u"%string
    = Some [Examples.line Hex.p 3].
Proof.
  assert (Hu : users Hex.db3 !! "u"%string = Some [Examples.line Hex.p 3]) by reflexivity.
  split; [exact Hu|].
  refine (addToCart_insufficient_stock Hex.db3 "u" Hex.p 3 Examples.p1 _ Hu _ _ _ _).
  - reflexivity.
  - discriminate.
  - reflexivity.
  - left. exists (Examples.line Hex.p 3). split; [left|]. split; [reflexivity|].
    right. split; [reflexivity|]. split; [reflexivity|].
    split; [discriminate|]. split; [discriminate|reflexivity].
Defined.

(** The add handler on a cart without a line for the product. *)
Lemma addToCart_push db u p q product cart :
  users db !! u = Some cart ->
  products db !! p = Some product ->
  p <> ""%string ->
  (1 <= q)%Q ->
  cart_valid cart ->
  no_line p cart ->
  (q <= stock product)%Q ->
  addToCart u (Some p) (Some q) db
    = (store u (cart ++ [{| productId := p; quantity := q |}]) db,
       Ok (populate db (cart ++ [{| productId := p; quantity := q |}]))).
Proof.
  intros Hu Hp Hne Hq Hvalid Hno Hs.
  assert (Hpos : (0 < q)%Q) by (eapply Qlt_le_trans; [|exact Hq]; reflexivity).
  rewrite (addToCart_unfold db u p q product cart) by done.
  unfold add_body. rewrite add_map_ok.
  2:{ intros item Hin Hpid. by destruct (Hno item Hin). }
  pose proof Hno as Hex. apply no_line_existsb in Hex. rewrite Hex. simpl.
  apply NumFacts.ltb_ge in Hs. rewrite Hs. simpl.
  rewrite (add_quantity_no_line p q cart Hno), save_valid; [done|].
  apply Forall_app. split; [done|]. by apply Forall_singleton.
Qed.

(** The cart after an addition to lines the schema and the stock admit. *)
Lemma add_quantity_valid stock p q cart :
  cart_valid cart ->
  (forall item, item ∈ cart -> productId item = p ->
                total_admitted stock (quantity item) q) ->
  cart_valid (add_quantity p q <$> cart).
Proof.
  intros Hv Hadm. unfold cart_valid. rewrite Forall_fmap.
  apply Forall_forall. intros item Hin. simpl. unfold add_quantity.
  unfold cart_valid in Hv. rewrite Forall_forall in Hv.
  destruct (is_product p item) eqn:E; [|by apply Hv].
  apply is_product_true in E.
  destruct (Hadm item Hin E) as (total & -> & H1 & _). done.
Qed.

(** The add handler on a cart with a line for the product. *)
Lemma addToCart_increment db u p q product cart :
  users db !! u = Some cart ->
  products db !! p = Some product ->
  p <> ""%string ->
  (0 < q)%Q ->
  cart_valid cart ->
  ~ no_line p cart ->
  (forall item, item ∈ cart -> productId item = p ->
                total_admitted (stock product) (quantity item) q) ->
  addToCart u (Some p) (Some q) db
    = (store u (add_quantity p q <$> cart) db,
       Ok (populate db (add_quantity p q <$> cart))).
Proof.
  intros Hu Hp Hne Hq Hvalid Hline Hs.
  rewrite (addToCart_unfold db u p q product cart) by done.
  unfold add_body. rewrite add_map_ok.
  2:{ intros item Hin Hpid. destruct (Hs item Hin Hpid) as (t & Ht & _ & Hst). eauto. }
  assert (Hex : existsb (is_product p) cart = true).
  { destruct (existsb (is_product p) cart) eqn:E; [done|].
    by apply no_line_existsb in E. }
  rewrite Hex. simpl. rewrite save_valid; [done|].
  by apply (add_quantity_valid (stock product)).
Qed.

(** The add handler stores the rounded sum: with 2^53 in the cart and a
    stock of 2^53 + 2, adding 1 succeeds, the total 2^53 + 1 being within
    the stock, and the stored quantity is 2^53 as before, not 2^53 + 1. *)
Lemma addToCart_rounds_sum :
  users Big.db_roomy !! "u"%string = Some [Examples.line Hex.p Big.two53] /\
  products Big.db_roomy !! Hex.p = Some Big.roomy /\
  Num.isInteger 1 = true /\
  (Big.two53 + 1 <= stock Big.roomy)%Q /\
  addToCart "u" (Some Hex.p) (Some 1%Q) Big.db_roomy
    = (Big.db_roomy,
       Ok [{| product := Some (Hex.p, Big.roomy); pquantity := Big.two53 |}]) /\
  users (addToCart "u" (Some Hex.p) (Some 1%Q) Big.db_roomy).1 !! "u"%string
    = Some [Examples.line Hex.p Big.two53] /\
  ~ (Big.two53 == Big.two53 + 1)%Q.
Proof.
  split; [reflexivity|]. split; [reflexivity|]. split; [reflexivity|].
  split; [discriminate|].
  split; [vm_compute; reflexivity|]. split; [vm_compute; reflexivity|].
  discriminate.
Qed.

(** The total the add handler computes for a line that satisfies the schema
    and a positive quantity is at least 1. *)
Lemma total_ge_1 e q total :
  (1 <= e)%Q -> (0 < q)%Q -> Num.add e q = Some total -> (1 <= total)%Q.
Proof.
  intros He Hq Ht. apply (NumFacts.round_ge_1 (e + q)); [lra|exact Ht].
Qed.

(** C2 (amended).  For a user [u], a product [p] of the catalog and an
    integer quantity [q > 0], on a cart that satisfies the schema:
    - when the cart has a line for [p], and for every such line, of quantity
      [e], the total the handler computes (the double sum of [e] and [q]) is
      within [p.stock], the add handler succeeds and stores the cart in
      which the quantity of the line for [p] has become that total and every
      other line is the same;
    - that total is [e + q] when [e] is an integer and [e + q] is within
      2^53 (and within [p.stock]);
    - when the cart has no line for [p] and [q <= p.stock], it succeeds and
      stores the cart followed by the one new line [(p, q)];
    - in particular on the empty cart the stored cart is the single line
      [(p, q)]. *)
Theorem addToCart_additive db u p q product cart :
  users db !! u = Some cart ->
  products db !! p = Some product ->
  p <> ""%string ->
  (0 < q)%Q ->
  Num.isInteger q = true ->
  cart_valid cart ->
  (~ no_line p cart ->
   (forall item, item ∈ cart -> productId item = p ->
                 Num.isInteger (quantity item) = true /\
                 (quantity item + q <= Num.exact)%Q /\
                 (quantity item + q <= stock product)%Q) ->
   exists cart',
     addToCart u (Some p) (Some q) db = (store u cart' db, Ok (populate db cart'))
     /\ length cart' = length cart
     /\ forall i item, cart !! i = Some item ->
          exists item',
            cart' !! i = Some item'
            /\ productId item' = productId item
            /\ (productId item <> p -> item' = item)
            /\ (productId item = p -> (quantity item' == quantity item + q)%Q))
  /\ (no_line p cart ->
      (q <= stock product)%Q ->
      let cart' := cart ++ [{| productId := p; quantity := q |}] in
      addToCart u (Some p) (Some q) db = (store u cart' db, Ok (populate db cart')))
  /\ (cart = [] ->
      (q <= stock product)%Q ->
      users (addToCart u (Some p) (Some q) db).1 !! u
        = Some [{| productId := p; quantity := q |}])
  /\ (~ no_line p cart ->
      (forall item, item ∈ cart -> productId item = p ->
                    exists total, Num.add (quantity item) q = Some total /\
                                  (total <= stock product)%Q) ->
      exists cart',
        addToCart u (Some p) (Some q) db = (store u cart' db, Ok (populate db cart'))
        /\ users (addToCart u (Some p) (Some q) db).1 !! u = Some cart'
        /\ length cart' = length cart
        /\ forall i item, cart !! i = Some item ->
             exists item',
               cart' !! i = Some item'
               /\ productId item' = productId item
               /\ (productId item <> p -> item' = item)
               /\ (productId item = p ->
                   Num.add (quantity item) q = Some (quantity item'))).
Proof.
  intros Hu Hp Hne Hq Hint Hvalid.
  pose proof (NumFacts.integer_pos_ge_1 q Hint Hq) as Hq1.
  assert (Hge : forall item, item ∈ cart -> (1 <= quantity item)%Q).
  { unfold cart_valid in Hvalid. by rewrite Forall_forall in Hvalid. }
  assert (Hsum : ~ no_line p cart ->
            (forall item, item ∈ cart -> productId item = p ->
                          exists total, Num.add (quantity item) q = Some total /\
                                        (total <= stock product)%Q) ->
            exists cart',
              addToCart u (Some p) (Some q) db = (store u cart' db, Ok (populate db cart'))
              /\ users (addToCart u (Some p) (Some q) db).1 !! u = Some cart'
              /\ length cart' = length cart
              /\ forall i item, cart !! i = Some item ->
                   exists item',
                     cart' !! i = Some item'
                     /\ productId item' = productId item
                     /\ (productId item <> p -> item' = item)
                     /\ (productId item = p ->
                         Num.add (quantity item) q = Some (quantity item'))).
  { intros Hline Hs.
    assert (E : addToCart u (Some p) (Some q) db
                = (store u (add_quantity p q <$> cart) db,
                   Ok (populate db (add_quantity p q <$> cart)))).
    { apply (addToCart_increment db u p q product cart); try done.
      intros item Hin Hpid. destruct (Hs item Hin Hpid) as (t & Ht & Hst).
      exists t. split; [done|]. split; [|done].
      apply (total_ge_1 (quantity item) q); [by apply Hge|done..]. }
    exists (add_quantity p q <$> cart). split; [exact E|]. split; [|split].
    - rewrite E. apply store_lookup.
    - apply length_fmap.
    - intros i item Hi. exists (add_quantity p q item).
      split; [by rewrite list_lookup_fmap, Hi|].
      unfold add_quantity. destruct (is_product p item) eqn:Ep.
      + apply is_product_true in Ep.
        destruct (Hs item) as (t & Ht & _);
          [apply list_elem_of_lookup; eauto|done|].
        rewrite Ht. simpl. split; [done|]. split; [done|]. by intros _.
      + apply is_product_false in Ep. split; [done|]. split; [done|]. done. }
  split; [|split; [|split]].
  - intros Hline Hs.
    assert (Hadm : forall item, item ∈ cart -> productId item = p ->
              exists total, Num.add (quantity item) q = Some total /\
                (total == quantity item + q)%Q /\
                (1 <= total)%Q /\ (total <= stock product)%Q).
    { intros item Hin Hpid. destruct (Hs item Hin Hpid) as (Hi & Hhi & Hst).
      apply total_exact_admitted; try done. by apply Hge. }
    destruct (Hsum Hline) as (cart' & E & _ & Hlen & Hl).
    { intros item Hin Hpid. destruct (Hadm item Hin Hpid) as (t & Ht & _ & _ & Hst).
      by exists t. }
    exists cart'. split; [exact E|]. split; [exact Hlen|].
    intros i item Hi. destruct (Hl i item Hi) as (item' & H1 & H2 & H3 & H4).
    exists item'. split; [done|]. split; [done|]. split; [done|].
    intros Hpid. specialize (H4 Hpid).
    destruct (Hadm item) as (t & Ht & Et & _);
      [apply list_elem_of_lookup; eauto|done|].
    rewrite Ht in H4. injection H4 as <-. exact Et.
  - intros Hno Hs cart'. by apply (addToCart_push db u p q product cart).
  - intros -> Hs. rewrite (addToCart_push db u p q product []); try done.
    + simpl. apply lookup_insert_eq.
    + intros x Hx. by apply elem_of_nil in Hx.
  - exact Hsum.
Qed.

Lemma addToCart_additive_witness :
  (users Hex.db3 !! "u"%string = Some [Examples.line Hex.p 3] /\
   exists cart',
     users (addToCart "u" (Some Hex.p) (Some 2%Q) Hex.db3).1 !! "u"%string = Some cart'
     /\ length cart' = 1%nat
     /\ exists item',
          cart' !! 0%nat = Some item' /\ productId item' = Hex.p
          /\ (quantity item' == 3 + 2)%Q)
  /\ (users Hex.db !! "u"%string = Some [] /\
      users (addToCart "u" (Some Hex.p) (Some 3%Q) Hex.db).1 !! "u"%string
        = Some [Examples.line Hex.p 3])
  /\ (users Big.db_roomy !! "u"%string = Some [Examples.line Hex.p Big.two53] /\
      exists cart',
        users (addToCart "u" (Some Hex.p) (Some 1%Q) Big.db_roomy).1 !! "u"%string
          = Some cart'
        /\ exists item',
             cart' !! 0%nat = Some item'
             /\ Num.add Big.two53 1 = Some (quantity item')).
Proof.
  split; [|split].
  - assert (Hu : users Hex.db3 !! "u"%string = Some [Examples.line Hex.p 3])
      by reflexivity.
    split; [exact Hu|].
    destruct (proj1 (addToCart_additive Hex.db3 "u" Hex.p 2 Examples.p1 _
                       Hu eq_refl ltac:(discriminate) eq_refl eq_refl
                       ltac:(apply Forall_singleton; discriminate)))
      as (cart' & Hc & Hlen & Hl).
    + intros Hno. by apply (Hno (Examples.line Hex.p 3)); [left|].
    + intros item Hin _. apply list_elem_of_singleton in Hin as ->.
      split; [reflexivity|]. split; discriminate.
    + exists cart'. split; [by rewrite Hc; apply store_lookup|].
      split; [exact Hlen|].
      destruct (Hl 0%nat (Examples.line Hex.p 3) eq_refl) as (item' & H1 & H2 & _ & H3).
      exists item'. split; [exact H1|]. split; [exact H2|]. by apply H3.
  - assert (Hu : users Hex.db !! "u"%string = Some []) by reflexivity.
    split; [exact Hu|].
    refine (proj1 (proj2 (proj2 (addToCart_additive Hex.db "u" Hex.p 3 Examples.p1 _
                                   Hu _ _ _ _ _))) _ _).
    + reflexivity.
    + discriminate.
    + reflexivity.
    + reflexivity.
    + apply Forall_nil_2.
    + reflexivity.
    + discriminate.
  - assert (Hu : users Big.db_roomy !! "u"%string = Some [Examples.line Hex.p Big.two53])
      by reflexivity.
    split; [exact Hu|].
    destruct (proj2 (proj2 (proj2
                (addToCart_additive Big.db_roomy "u" Hex.p 1 Big.roomy _
                   Hu eq_refl ltac:(discriminate) eq_refl eq_refl
                   ltac:(apply Forall_singleton; discriminate)))))
      as (cart' & _ & Hc & _ & Hl).
    + intros Hno. by apply (Hno (Examples.line Hex.p Big.two53)); [left|].
    + intros item Hin _. apply list_elem_of_singleton in Hin as ->.
      exists Big.two53. split; [vm_compute; reflexivity|discriminate].
    + exists cart'. split; [exact Hc|].
      destruct (Hl 0%nat (Examples.line Hex.p Big.two53) eq_refl)
        as (item' & H1 & _ & _ & H3).
      exists item'. split; [exact H1|]. by apply H3.
Defined.

End Add.

(** ** PUT /api/cart/update/:productId *)

Section Update.

Implicit Types (db : Db) (cart : list CartItem) (item : CartItem).
Implicit Types (u p : string) (q : Q) (product : Product).

Lemma findIndex_None {A} (f : A -> bool) (l : list A) :
  findIndex f l = None <-> forall x, x ∈ l -> f x = false.
Proof.
  induction l as [|y l IH]; simpl.
  - split; [|done]. intros _ x Hx. by apply elem_of_nil in Hx.
  - destruct (f y) eqn:E.
    + split; [done|]. intros H. specialize (H y). rewrite E in H.
      discriminate H. left.
    + rewrite fmap_None, IH. split.
      * intros H x Hx. apply elem_of_cons in Hx as [->|Hx]; auto.
      * intros H x Hx. apply H. by right.
Qed.

(** The first element [f] accepts is at the index [findIndex] returns. *)
Lemma findIndex_middle {A} (f : A -> bool) (l1 : list A) (x : A) (l2 : list A) :
  (forall y, y ∈ l1 -> f y = false) -> f x = true ->
  findIndex f (l1 ++ x :: l2) = Some (length l1).
Proof.
  intros H Hx. induction l1 as [|y l1 IH]; simpl.
  - by rewrite Hx.
  - rewrite (H y) by left. rewrite IH; [done|]. intros z Hz. apply H. by right.
Qed.

Lemma findIndex_Some {A} (f : A -> bool) (l : list A) (i : nat) :
  findIndex f l = Some i ->
  exists l1 x l2, l = l1 ++ x :: l2 /\ length l1 = i /\ f x = true /\
                  forall y, y ∈ l1 -> f y = false.
Proof.
  revert i. induction l as [|y l IH]; simpl; intros i; [done|].
  destruct (f y) eqn:E.
  - intros [= <-]. exists [], y, l. repeat split; try done.
    intros z Hz. by apply elem_of_nil in Hz.
  - destruct (findIndex f l) as [j|] eqn:Ej; simpl; [|done].
    intros [= <-]. destruct (IH j eq_refl) as (l1 & x & l2 & -> & <- & Hx & Hl1).
    exists (y :: l1), x, l2. repeat split; try done.
    intros z Hz. apply elem_of_cons in Hz as [->|Hz]; auto.
Qed.

Lemma no_line_is_product p cart :
  no_line p cart <-> forall item, item ∈ cart -> is_product p item = false.
Proof.
  unfold no_line. split; intros H item Hin; apply is_product_false; auto.
Qed.

Lemma alter_middle {A} (f : A -> A) (l1 : list A) (x : A) (l2 : list A) :
  alter f (length l1) (l1 ++ x :: l2) = l1 ++ f x :: l2.
Proof. induction l1 as [|y l1 IH]; [done|]. cbn. f_equal. exact IH. Qed.

(** The update handler past its guard, the user and the cart line found. *)
Lemma updateQuantity_unfold db u p q cart l1 e l2 product :
  users db !! u = Some cart ->
  (0 <= q)%Q ->
  cart = l1 ++ {| productId := p; quantity := e |} :: l2 ->
  no_line p l1 ->
  products db !! p = Some product ->
  updateQuantity u p (Some q) db
    = catch_stock db (update_body u q cart (length l1) product db).
Proof.
  intros Hu Hq Hc Hl1 Hp. unfold updateQuantity.
  apply NumFacts.ltb_ge in Hq. rewrite Hq, Hu.
  rewrite Hc at 1. rewrite findIndex_middle, Hp; [done| |].
  - by apply no_line_is_product.
  - by apply is_product_true.
Qed.

(** An error response of the update handler comes with the stored state of
    before the call. *)
Lemma updateQuantity_failure_unchanged db u p r :
  status (updateQuantity u p r db).2 <> 200 -> (updateQuantity u p r db).1 = db.
Proof.
  unfold updateQuantity. destruct r as [q|]; [|done].
  destruct (Num.ltb q 0); [done|].
  destruct (users db !! u) as [cart|]; [|done].
  destruct (findIndex (is_product p) cart) as [i|]; [|done].
  destruct (products db !! p) as [product|]; [|done].
  unfold update_body.
  destruct (Num.eqb q 0); simpl.
  - destruct (save u (delete i cart) db) as [db1|[]]; simpl; done.
  - destruct (Num.ltb (stock product) q); simpl; [done|].
    destruct (save u (alter (set_quantity q) i cart) db) as [db1|[]]; simpl; done.
Qed.

(** C3.  For a user [u] and a quantity [q >= 0]:
    - the update handler answers [NotFound] when the cart of [u] has no line
      for [p];
    - when [p] is a product of the catalog, the cart has a line for [p] and
      [q > 0], it answers [InsufficientStock] if [q > p.stock]; otherwise, for
      an integer [q] on a cart that satisfies the schema, it succeeds and
      stores the cart in which that line has quantity exactly [q] (whatever
      the quantity [e] before) and every other line is the same;
    - whenever it answers an error the stored state is the one before the
      call. *)
Theorem updateQuantity_absolute db u p q cart :
  users db !! u = Some cart ->
  (0 <= q)%Q ->
  (no_line p cart -> updateQuantity u p (Some q) db = (db, NotFound NoCartItem))
  /\ (forall product l1 e l2,
        products db !! p = Some product ->
        cart = l1 ++ {| productId := p; quantity := e |} :: l2 ->
        no_line p l1 ->
        (0 < q)%Q ->
        ((stock product < q)%Q ->
         updateQuantity u p (Some q) db
           = (db, InsufficientStock (name product) (stock product)))
        /\ ((q <= stock product)%Q ->
            Num.isInteger q = true ->
            cart_valid cart ->
            let cart' := l1 ++ {| productId := p; quantity := q |} :: l2 in
            updateQuantity u p (Some q) db
              = (store u cart' db, Ok (populate db cart'))))
  /\ (forall r, status (updateQuantity u p r db).2 <> 200 ->
                (updateQuantity u p r db).1 = db).
Proof.
  intros Hu Hq. split; [|split].
  - intros Hno. unfold updateQuantity.
    apply NumFacts.ltb_ge in Hq. rewrite Hq, Hu.
    assert (Hi : findIndex (is_product p) cart = None).
    { by apply findIndex_None, no_line_is_product. }
    by rewrite Hi.
  - intros product l1 e l2 Hp Hc Hl1 Hpos.
    assert (Hz : Num.eqb q 0 = false).
    { destruct (Num.eqb q 0) eqn:E; [|done]. apply NumFacts.eqb_eq in E.
      rewrite E in Hpos. by apply Qlt_irrefl in Hpos. }
    rewrite (updateQuantity_unfold db u p q cart l1 e l2 product) by done.
    unfold update_body. rewrite Hz. split.
    + intros Hs. apply NumFacts.ltb_lt in Hs. by rewrite Hs.
    + intros Hs Hint Hvalid. cbv zeta. apply NumFacts.ltb_ge in Hs. rewrite Hs. simpl.
      assert (Ha : alter (set_quantity q) (length l1) cart
                   = l1 ++ {| productId := p; quantity := q |} :: l2).
      { rewrite Hc, alter_middle. reflexivity. }
      rewrite Ha, save_valid; [done|].
      unfold cart_valid in *. rewrite Hc in Hvalid.
      apply Forall_app in Hvalid as [H1 H2]. apply Forall_cons in H2 as [_ H2].
      apply Forall_app. split; [done|]. apply Forall_cons. split; [|done].
      simpl. by apply NumFacts.integer_pos_ge_1.
  - intros r Hr. by apply updateQuantity_failure_unchanged.
Qed.

Lemma updateQuantity_absolute_witness :
  users Examples.db3 !! "u"%string = Some [Examples.line "p1" 3] /\
  updateQuantity "u" "p2" (Some 5%Q) Examples.db3 = (Examples.db3, NotFound NoCartItem) /\
  updateQuantity "u" "p1" (Some 6%Q) Examples.db3 = (Examples.db3, InsufficientStock "p1" 5) /\
  updateQuantity "u" "p1" (Some 5%Q) Examples.db3
    = (store "u" [Examples.line "p1" 5] Examples.db3,
       Ok (populate Examples.db3 [Examples.line "p1" 5])).
Proof.
  assert (Hu : users Examples.db3 !! "u"%string = Some [Examples.line "p1" 3])
    by reflexivity.
  split; [exact Hu|]. split; [|split].
  - refine (proj1 (updateQuantity_absolute Examples.db3 "u" "p2" 5 _ Hu _) _).
    + discriminate.
    + intros item Hin. apply list_elem_of_singleton in Hin as ->. discriminate.
  - refine (proj1 (proj1 (proj2 (updateQuantity_absolute Examples.db3 "u" "p1" 6 _ Hu _))
                     Examples.p1 [] 3%Q [] _ _ _ _) _).
    + discriminate.
    + reflexivity.
    + reflexivity.
    + intros item Hin. by apply elem_of_nil in Hin.
    + reflexivity.
    + reflexivity.
  - refine (proj2 (proj1 (proj2 (updateQuantity_absolute Examples.db3 "u" "p1" 5 _ Hu _))
                     Examples.p1 [] 3%Q [] _ _ _ _) _ _ _).
    + discriminate.
    + reflexivity.
    + reflexivity.
    + intros item Hin. by apply elem_of_nil in Hin.
    + reflexivity.
    + discriminate.
    + reflexivity.
    + apply Forall_singleton. discriminate.
Defined.

(** C9.  When the cart of [u] has a line for [p] and the catalog has no
    product [p], the update handler answers [NotFound] for every quantity
    [q >= 0], [0] included, and the stored state, with the line for [p] in
    the cart of [u], is the one before the call. *)
Theorem updateQuantity_product_missing db u p q cart :
  users db !! u = Some cart ->
  ~ no_line p cart ->
  products db !! p = None ->
  (0 <= q)%Q ->
  updateQuantity u p (Some q) db = (db, NotFound NoProduct)
  /\ users (updateQuantity u p (Some q) db).1 !! u = Some cart.
Proof.
  intros Hu Hline Hp Hq.
  assert (E : updateQuantity u p (Some q) db = (db, NotFound NoProduct)).
  { unfold updateQuantity. apply NumFacts.ltb_ge in Hq. rewrite Hq, Hu.
    destruct (findIndex (is_product p) cart) as [i|] eqn:Ei.
    - by rewrite Hp.
    - destruct Hline. by apply no_line_is_product, findIndex_None. }
  by rewrite E.
Qed.

Lemma updateQuantity_product_missing_witness :
  let db := Examples.db_dangling in
  users db !! "u"%string = Some [Examples.line "p1" 3] /\
  updateQuantity "u" "p1" (Some 0%Q) db = (db, NotFound NoProduct) /\
  updateQuantity "u" "p1" (Some 2%Q) db = (db, NotFound NoProduct).
Proof.
  intros db.
  assert (Hu : users db !! "u"%string = Some [Examples.line "p1" 3]) by reflexivity.
  assert (Hline : ~ no_line "p1" [Examples.line "p1" 3]).
  { intros Hno. by apply (Hno (Examples.line "p1" 3)); [left|]. }
  split; [exact Hu|]. split.
  - refine (proj1 (updateQuantity_product_missing db "u" "p1" 0 _ Hu Hline _ _)).
    + reflexivity.
    + discriminate.
  - refine (proj1 (updateQuantity_product_missing db "u" "p1" 2 _ Hu Hline _ _)).
    + reflexivity.
    + discriminate.
Defined.

(** C10.  When the body has no [quantity], or a [quantity] below 0, the
    update handler answers [InvalidArgument] whatever the stored state is
    (the user and the cart are not looked up), and the stored state is the
    one before the call. *)
Theorem updateQuantity_invalid db u p (quantity : option Q) :
  quantity = None \/ (exists q, quantity = Some q /\ (q < 0)%Q) ->
  updateQuantity u p quantity db = (db, InvalidArgument).
Proof.
  intros [-> | (q & -> & Hq)]; [done|].
  unfold updateQuantity. apply NumFacts.ltb_lt in Hq. by rewrite Hq.
Qed.

Lemma updateQuantity_invalid_witness :
  updateQuantity "u" "p1" None Examples.db3 = (Examples.db3, InvalidArgument) /\
  updateQuantity "u" "p1" (Some (-1)%Q) Examples.db3 = (Examples.db3, InvalidArgument) /\
  updateQuantity "nobody" "p1" (Some (-1)%Q) Examples.db3 = (Examples.db3, InvalidArgument).
Proof.
  split; [|split].
  - apply updateQuantity_invalid. by left.
  - apply updateQuantity_invalid. right. exists (-1)%Q. split; reflexivity.
  - apply updateQuantity_invalid. right. exists (-1)%Q. split; reflexivity.
Defined.

End Update.

(** ** DELETE /api/cart/remove/:productId and DELETE /api/cart/clear *)

Section Remove.

Implicit Types (db : Db) (cart : list CartItem) (item : CartItem).
Implicit Types (u p : string) (q : Q) (product : Product).

Lemma cart_valid_filter p cart :
  cart_valid cart -> cart_valid (filter (fun item => productId item <> p) cart).
Proof.
  unfold cart_valid. rewrite !Forall_forall. intros H x Hx.
  apply list_elem_of_filter in Hx as [_ Hx]. by apply H.
Qed.

Lemma filter_no_line p cart :
  no_line p cart -> filter (fun item => productId item <> p) cart = cart.
Proof.
  intros Hno. induction cart as [|item cart IH]; [done|].
  rewrite filter_cons_True by (apply Hno; left).
  f_equal. apply IH. intros x Hx. apply Hno. by right.
Qed.

Lemma no_line_filter p cart :
  no_line p (filter (fun item => productId item <> p) cart).
Proof. intros x Hx. by apply list_elem_of_filter in Hx as [? _]. Qed.

(** The remove handler on a cart that satisfies the schema. *)
Lemma removeFromCart_valid db u p cart :
  users db !! u = Some cart ->
  cart_valid cart ->
  removeFromCart u p db
    = (store u (filter (fun item => productId item <> p) cart) db,
       Ok (populate db (filter (fun item => productId item <> p) cart))).
Proof.
  intros Hu Hv. unfold removeFromCart. rewrite Hu. cbv zeta.
  rewrite save_valid; [done|]. by apply cart_valid_filter.
Qed.

(** The lines of a populated cart, read by index: the product document of
    the line, if the catalog has it, and the quantity of the line. *)
Lemma populate_lookup db cart i item :
  cart !! i = Some item ->
  populate db cart !! i
    = Some {| product := (fun pr => (productId item, pr)) <$> products db !! productId item;
              pquantity := quantity item |}.
Proof. intros H. unfold populate. by rewrite list_lookup_fmap, H. Qed.

(** C6.  For a user [u] of the store, whose cart satisfies the schema, and
    any product identifier [p], the remove handler succeeds and answers the
    updated cart: the stored cart is the one before without the lines for
    [p], every other line kept in its place; the answer has, line by line,
    the product document and the quantity of the stored cart, and no line
    for [p]; when the cart has no line for [p] the stored state is the one
    before the call; and removing a second time gives the state and the
    answer of removing once. *)
Theorem removeFromCart_idempotent db u p cart :
  users db !! u = Some cart ->
  cart_valid cart ->
  let cart' := filter (fun item => productId item <> p) cart in
  removeFromCart u p db = (store u cart' db, Ok (populate db cart'))
  /\ (forall item, item ∈ cart' <-> item ∈ cart /\ productId item <> p)
  /\ cart' `sublist_of` cart
  /\ (no_line p cart -> removeFromCart u p db = (db, Ok (populate db cart)))
  /\ removeFromCart u p (removeFromCart u p db).1 = removeFromCart u p db
  /\ (exists answer,
        (removeFromCart u p db).2 = Ok answer
        /\ users (removeFromCart u p db).1 !! u = Some cart'
        /\ length answer = length cart'
        /\ (forall i item, cart' !! i = Some item ->
              answer !! i
                = Some {| product := (fun pr => (productId item, pr))
                                       <$> products db !! productId item;
                          pquantity := quantity item |})
        /\ (forall line pr, line ∈ answer -> product line <> Some (p, pr))).
Proof.
  intros Hu Hv cart'.
  pose proof (removeFromCart_valid db u p cart Hu Hv) as E. fold cart' in E.
  split; [exact E|]. split; [|split; [|split; [|split]]].
  - intros item. unfold cart'. rewrite list_elem_of_filter. tauto.
  - apply sublist_filter.
  - intros Hno. rewrite E. unfold cart'. rewrite filter_no_line by done.
    by rewrite store_id.
  - rewrite E. simpl.
    rewrite (removeFromCart_valid (store u cart' db) u p cart').
    + rewrite (filter_no_line p cart') by apply no_line_filter.
      by rewrite store_store.
    + apply store_lookup.
    + by apply cart_valid_filter.
  - exists (populate db cart'). rewrite E. cbn [fst snd].
    split; [done|]. split; [apply store_lookup|]. split; [|split].
    + unfold populate. by rewrite length_fmap.
    + intros i item Hi. by apply populate_lookup.
    + intros line pr Hin Hline. unfold populate in Hin.
      apply list_elem_of_fmap in Hin as (item & -> & Hin).
      unfold populate_item in Hline. cbn [product] in Hline.
      destruct (products db !! productId item); [|done].
      injection Hline as Hid _.
      by apply (no_line_filter p cart item).
Qed.

Lemma removeFromCart_idempotent_witness :
  users Examples.db3 !! "u"%string = Some [Examples.line "p1" 3] /\
  removeFromCart "u" "p1" Examples.db3
    = (store "u" [] Examples.db3, Ok []) /\
  removeFromCart "u" "p2" Examples.db3
    = (Examples.db3, Ok [{| product := Some ("p1"%string, Examples.p1); pquantity := 3 |}]) /\
  removeFromCart "u" "p1" (removeFromCart "u" "p1" Examples.db3).1
    = removeFromCart "u" "p1" Examples.db3 /\
  (exists answer,
     (removeFromCart "u" "p2" Examples.db3).2 = Ok answer
     /\ answer !! 0%nat
         = Some {| product := Some ("p1"%string, Examples.p1); pquantity := 3 |}).
Proof.
  assert (Hu : users Examples.db3 !! "u"%string = Some [Examples.line "p1" 3])
    by reflexivity.
  assert (Hv : cart_valid [Examples.line "p1" 3]).
  { apply Forall_singleton. discriminate. }
  split; [exact Hu|]. split; [|split; [|split]].
  - exact (proj1 (removeFromCart_idempotent Examples.db3 "u" "p1" _ Hu Hv)).
  - refine (proj1 (proj2 (proj2 (proj2
              (removeFromCart_idempotent Examples.db3 "u" "p2" _ Hu Hv)))) _).
    intros item Hin. apply list_elem_of_singleton in Hin as ->. discriminate.
  - exact (proj1 (proj2 (proj2 (proj2 (proj2
              (removeFromCart_idempotent Examples.db3 "u" "p1" _ Hu Hv)))))).
  - destruct (proj2 (proj2 (proj2 (proj2 (proj2
              (removeFromCart_idempotent Examples.db3 "u" "p2" _ Hu Hv))))))
      as (answer & Ha & _ & _ & Hl & _).
    exists answer. split; [exact Ha|].
    exact (Hl 0%nat (Examples.line "p1" 3) eq_refl).
Defined.

(** C7.  For a user [u] of the store, whatever the cart, the clear handler
    succeeds, stores the empty cart, and the cart handler called on the
    resulting state answers the empty list. *)
Theorem clearCart_then_getCart db u cart :
  users db !! u = Some cart ->
  clearCart u db = (store u [] db, Cleared)
  /\ users (clearCart u db).1 !! u = Some []
  /\ getCart u (clearCart u db).1 = ((clearCart u db).1, Ok []).
Proof.
  intros Hu.
  assert (E : clearCart u db = (store u [] db, Cleared)).
  { unfold clearCart. by rewrite Hu. }
  rewrite E. simpl. split; [done|]. split.
  - apply lookup_insert_eq.
  - unfold getCart. by rewrite store_lookup.
Qed.

Lemma clearCart_then_getCart_witness :
  users Examples.db3 !! "u"%string = Some [Examples.line "p1" 3] /\
  clearCart "u" Examples.db3 = (store "u" [] Examples.db3, Cleared) /\
  getCart "u" (clearCart "u" Examples.db3).1 = ((clearCart "u" Examples.db3).1, Ok []).
Proof.
  assert (Hu : users Examples.db3 !! "u"%string = Some [Examples.line "p1" 3])
    by reflexivity.
  split; [exact Hu|]. split.
  - exact (proj1 (clearCart_then_getCart Examples.db3 "u" _ Hu)).
  - exact (proj2 (proj2 (clearCart_then_getCart Examples.db3 "u" _ Hu))).
Defined.

End Remove.

(** ** Update to zero and removal *)

Section UpdateZero.

Implicit Types (db : Db) (cart : list CartItem) (item : CartItem).
Implicit Types (u p : string) (q : Q) (product : Product).

(** A cart with a line for [p] splits at its first line for [p]. *)
Lemma first_line p cart :
  ~ no_line p cart ->
  exists l1 e l2, cart = l1 ++ {| productId := p; quantity := e |} :: l2 /\ no_line p l1.
Proof.
  intros Hline. destruct (findIndex (is_product p) cart) as [i|] eqn:Ei.
  - apply findIndex_Some in Ei as (l1 & [p' e] & l2 & -> & _ & Hx & Hl1).
    apply is_product_true in Hx. simpl in Hx. subst p'.
    exists l1, e, l2. split; [done|]. by apply no_line_is_product.
  - destruct Hline. by apply no_line_is_product, findIndex_None.
Qed.

(** In a cart unique by product, removing the first line for [p] removes
    every line for [p]. *)
Lemma filter_unique_middle p l1 e l2 :
  cart_unique (l1 ++ {| productId := p; quantity := e |} :: l2) ->
  filter (fun item => productId item <> p)
         (l1 ++ {| productId := p; quantity := e |} :: l2) = l1 ++ l2.
Proof.
  unfold cart_unique. rewrite fmap_app, fmap_cons. simpl.
  intros (_ & Hl1 & [Hl2 _]%NoDup_cons)%NoDup_app.
  rewrite filter_app, filter_cons_False by (simpl; tauto).
  rewrite !filter_no_line; [done| |].
  - intros x Hx Hp. apply Hl2. rewrite <- Hp. by apply list_elem_of_fmap_2.
  - intros x Hx Hp. apply (Hl1 (productId x)).
    + by apply list_elem_of_fmap_2.
    + rewrite Hp. left.
Qed.

(** The update handler with a quantity equal to 0, the cart line and the
    product found. *)
Lemma updateQuantity_zero db u p q cart l1 e l2 product :
  users db !! u = Some cart ->
  (q == 0)%Q ->
  cart = l1 ++ {| productId := p; quantity := e |} :: l2 ->
  no_line p l1 ->
  products db !! p = Some product ->
  cart_valid cart ->
  updateQuantity u p (Some q) db = (store u (l1 ++ l2) db, Ok (populate db (l1 ++ l2))).
Proof.
  intros Hu Hq Hc Hl1 Hp Hv.
  rewrite (updateQuantity_unfold db u p q cart l1 e l2 product); [|done| |done..].
  2:{ rewrite Hq. discriminate. }
  unfold update_body. apply NumFacts.eqb_eq in Hq. rewrite Hq. simpl.
  assert (Hd : delete (length l1) cart = l1 ++ l2).
  { rewrite Hc. apply delete_middle. }
  rewrite Hd, save_valid; [done|].
  rewrite <- Hd. by apply Forall_delete.
Qed.

Lemma populate_not_lists db p cart : no_line p cart -> ~ lists p (Ok (populate db cart)).
Proof.
  intros Hno (pitem & pr & Hin & Hpr). unfold populate in Hin.
  apply list_elem_of_fmap in Hin as (item & -> & Hin).
  unfold populate_item in Hpr. simpl in Hpr.
  destruct (products db !! productId item); simplify_eq/=.
  by apply (Hno item).
Qed.

(** Update to zero is not removal when the product behind the cart line has
    left the catalog: the update handler answers [NotFound] and keeps the
    line, the remove handler succeeds and removes it. *)
Lemma updateQuantity_zero_dangling :
  users Examples.db_dangling !! "u"%string = Some [Examples.line "p1" 3] /\
  updateQuantity "u" "p1" (Some 0%Q) Examples.db_dangling
    = (Examples.db_dangling, NotFound NoProduct) /\
  removeFromCart "u" "p1" Examples.db_dangling
    = (store "u" [] Examples.db_dangling, Ok []) /\
  users (updateQuantity "u" "p1" (Some 0%Q) Examples.db_dangling).1 !! "u"%string
    <> users (removeFromCart "u" "p1" Examples.db_dangling).1 !! "u"%string.
Proof.
  split; [reflexivity|]. split; [reflexivity|]. split; [reflexivity|].
  vm_compute. discriminate.
Qed.

(** C5 (amended).  When the cart of [u] has a line for [p], the catalog has
    a product [p], and the cart satisfies the schema and is unique by
    product, the update handler with quantity 0 and the remove handler give
    the same stored state and the same answer: both succeed, the stored cart
    is the one before without the line for [p], every other line kept, and
    the cart handler called afterwards does not list [p]. *)
Theorem updateQuantity_zero_is_remove db u p cart product :
  users db !! u = Some cart ->
  ~ no_line p cart ->
  products db !! p = Some product ->
  cart_valid cart ->
  cart_unique cart ->
  let cart' := filter (fun item => productId item <> p) cart in
  updateQuantity u p (Some 0%Q) db = removeFromCart u p db
  /\ removeFromCart u p db = (store u cart' db, Ok (populate db cart'))
  /\ (forall item, item ∈ cart' <-> item ∈ cart /\ productId item <> p)
  /\ getCart u (store u cart' db) = (store u cart' db, Ok (populate db cart'))
  /\ ~ lists p (getCart u (store u cart' db)).2.
Proof.
  intros Hu Hline Hp Hv Huniq cart'.
  destruct (first_line p cart Hline) as (l1 & e & l2 & Hc & Hl1).
  assert (Hf : cart' = l1 ++ l2).
  { unfold cart'. rewrite Hc. apply filter_unique_middle. by rewrite <- Hc. }
  assert (Hg : getCart u (store u cart' db) = (store u cart' db, Ok (populate db cart'))).
  { unfold getCart. by rewrite store_lookup. }
  split; [|split; [|split; [|split]]].
  - rewrite (updateQuantity_zero db u p 0 cart l1 e l2 product) by done.
    rewrite (removeFromCart_valid db u p cart) by done.
    fold cart'. by rewrite Hf.
  - by apply removeFromCart_valid.
  - intros item. unfold cart'. rewrite list_elem_of_filter. tauto.
  - exact Hg.
  - rewrite Hg. simpl. apply populate_not_lists, no_line_filter.
Qed.

Lemma updateQuantity_zero_is_remove_witness :
  users Examples.db3 !! "u"%string = Some [Examples.line "p1" 3] /\
  updateQuantity "u" "p1" (Some 0%Q) Examples.db3 = removeFromCart "u" "p1" Examples.db3 /\
  removeFromCart "u" "p1" Examples.db3 = (store "u" [] Examples.db3, Ok []).
Proof.
  assert (Hu : users Examples.db3 !! "u"%string = Some [Examples.line "p1" 3])
    by reflexivity.
  assert (H : ~ no_line "p1" [Examples.line "p1" 3] /\
              products Examples.db3 !! "p1"%string = Some Examples.p1 /\
              cart_valid [Examples.line "p1" 3] /\
              cart_unique [Examples.line "p1" 3]).
  { split; [|split; [|split]].
    - intros Hno. by apply (Hno (Examples.line "p1" 3)); [left|].
    - reflexivity.
    - apply Forall_singleton. discriminate.
    - apply NoDup_singleton. }
  destruct H as (H1 & H2 & H3 & H4).
  split; [exact Hu|]. split.
  - exact (proj1 (updateQuantity_zero_is_remove Examples.db3 "u" "p1" _ _ Hu H1 H2 H3 H4)).
  - exact (proj1 (proj2
             (updateQuantity_zero_is_remove Examples.db3 "u" "p1" _ _ Hu H1 H2 H3 H4))).
Defined.

End UpdateZero.

(** ** The scenario of the specification *)

Section Scenario.

Implicit Types (db : Db) (u p : string) (product : Product).

(** C8.  For a user [u] with an empty cart and a product [p1] with stock 5:
    adding 3 succeeds with cart [[(p1,3)]]; adding 3 again answers
    [InsufficientStock] and leaves [[(p1,3)]]; updating to 5 succeeds with
    [[(p1,5)]]; updating to 0 succeeds with the empty cart. *)
Theorem scenario db u p1 product :
  users db !! u = Some [] ->
  products db !! p1 = Some product ->
  p1 <> ""%string ->
  (stock product == 5)%Q ->
  let line q := {| productId := p1; quantity := q |} in
  let listed q := {| product := Some (p1, product); pquantity := q |} in
  let s1 := addToCart u (Some p1) (Some 3%Q) db in
  let s2 := addToCart u (Some p1) (Some 3%Q) s1.1 in
  let s3 := updateQuantity u p1 (Some 5%Q) s2.1 in
  let s4 := updateQuantity u p1 (Some 0%Q) s3.1 in
  (s1.2 = Ok [listed 3%Q] /\ users s1.1 !! u = Some [line 3%Q])
  /\ (s2.2 = InsufficientStock (name product) (stock product)
      /\ users s2.1 !! u = Some [line 3%Q])
  /\ (s3.2 = Ok [listed 5%Q] /\ users s3.1 !! u = Some [line 5%Q])
  /\ (s4.2 = Ok [] /\ users s4.1 !! u = Some []).
Proof.
  intros Hu Hp Hne Hs line listed s1 s2 s3 s4.
  assert (Hv : forall q, (1 <= q)%Q -> cart_valid [line q]).
  { intros q Hq. by apply Forall_singleton. }
  assert (Hself : is_product p1 (line 3%Q) = true) by by apply is_product_true.
  (* add 3 to the empty cart *)
  assert (E1 : s1 = (store u [line 3%Q] db, Ok [listed 3%Q])).
  { unfold s1. rewrite (addToCart_unfold db u p1 3 product []); [|done..].
    unfold add_body. simpl.
    assert (Hl : Num.ltb (stock product) 3 = false).
    { apply NumFacts.ltb_ge. by rewrite Hs. }
    rewrite Hl. simpl. unfold populate_item. simpl. by rewrite Hp. }
  (* add 3 again *)
  assert (E2 : s2 = (store u [line 3%Q] db, InsufficientStock (name product) (stock product))).
  { unfold s2. rewrite E1. cbn [fst].
    rewrite (addToCart_unfold _ u p1 3 product [line 3%Q]);
      [|apply store_lookup|done..].
    unfold add_body. rewrite add_map_throw; [done|].
    exists (line 3%Q). split; [left|]. split; [done|].
    apply total_exact_exceeds; [reflexivity|reflexivity|discriminate|discriminate|].
    simpl. rewrite Hs. reflexivity. }
  (* update to 5 *)
  assert (E3 : s3 = (store u [line 5%Q] db, Ok [listed 5%Q])).
  { unfold s3. rewrite E2. cbn [fst].
    rewrite (updateQuantity_unfold _ u p1 5 [line 3%Q] [] 3%Q [] product);
      [|apply store_lookup|done..| |done].
    2:{ intros x Hx. by apply elem_of_nil in Hx. }
    unfold update_body. simpl.
    assert (Hl : Num.ltb (stock product) 5 = false).
    { apply NumFacts.ltb_ge. by rewrite Hs. }
    rewrite Hl. simpl. unfold populate_item. simpl. by rewrite Hp, store_store. }
  (* update to 0 *)
  assert (E4 : s4 = (store u [] db, Ok [])).
  { unfold s4. rewrite E3. cbn [fst].
    rewrite (updateQuantity_zero _ u p1 0 [line 5%Q] [] 5%Q [] product);
      [|apply store_lookup|done|done| |done|by apply Hv].
    2:{ intros x Hx. by apply elem_of_nil in Hx. }
    simpl. by rewrite store_store. }
  rewrite E1, E2, E3, E4. simpl. rewrite !lookup_insert_eq. done.
Qed.

Lemma scenario_witness :
  users Examples.db0 !! "u"%string = Some [] /\
  products Examples.db0 !! "p1"%string = Some Examples.p1 /\
  let s1 := addToCart "u" (Some "p1"%string) (Some 3%Q) Examples.db0 in
  let s2 := addToCart "u" (Some "p1"%string) (Some 3%Q) s1.1 in
  let s3 := updateQuantity "u" "p1" (Some 5%Q) s2.1 in
  let s4 := updateQuantity "u" "p1" (Some 0%Q) s3.1 in
  users s1.1 !! "u"%string = Some [Examples.line "p1" 3] /\
  s2.2 = InsufficientStock "p1" 5 /\
  users s2.1 !! "u"%string = Some [Examples.line "p1" 3] /\
  users s3.1 !! "u"%string = Some [Examples.line "p1" 5] /\
  users s4.1 !! "u"%string = Some [].
Proof.
  assert (Hu : users Examples.db0 !! "u"%string = Some []) by reflexivity.
  assert (Hp : products Examples.db0 !! "p1"%string = Some Examples.p1) by reflexivity.
  assert (Hne : "p1"%string <> ""%string) by discriminate.
  assert (Hs : (stock Examples.p1 == 5)%Q) by reflexivity.
  split; [exact Hu|]. split; [exact Hp|].
  pose proof (scenario Examples.db0 "u" "p1" Examples.p1 Hu Hp Hne Hs) as H.
  cbv zeta in H. destruct H as ((_ & H1) & (H2 & H2') & (_ & H3) & (_ & H4)).
  cbv zeta. split; [exact H1|]. split; [exact H2|]. split; [exact H2'|].
  split; [exact H3|exact H4].
Defined.

End Scenario.

(** ** The stored quantities *)

Section Invariant.

Implicit Types (db : Db) (cart : list CartItem) (item : CartItem).
Implicit Types (u p : string) (q : Q) (r : Request).

(** [save] writes carts that satisfy the schema only. *)
Lemma save_Return u cart db db1 :
  save u cart db = Return db1 -> cart_valid cart /\ db1 = store u cart db.
Proof.
  unfold save. destruct (validate cart) eqn:E; [|done].
  intros [= <-]. split; [|done]. by apply validate_spec.
Qed.

(** [user.cart.map] in the add handler keeps the product of every line. *)
Lemma add_map_ids product pid q found cart found' cart' :
  add_map product pid q found cart = Return (found', cart') ->
  productId <$> cart' = productId <$> cart.
Proof.
  revert found found' cart'.
  induction cart as [|item cart IH]; simpl; intros found found' cart'.
  - by intros [= <- <-].
  - destruct (is_product pid item) eqn:Ep.
    + rewrite add_item_product by done.
      destruct (Num.add (quantity item) q) as [total|]; [|done].
      destruct (Num.ltb _ _); simpl; [done|].
      destruct (add_map product pid q true cart) as [[f c]|] eqn:E; simpl; [|done].
      intros [= <- <-]. simpl. f_equal. by eapply IH.
    + rewrite add_item_other by done. simpl.
      destruct (add_map product pid q found cart) as [[f c]|] eqn:E; simpl; [|done].
      intros [= <- <-]. simpl. f_equal. by eapply IH.
Qed.

Lemma cart_unique_push pid q cart :
  no_line pid cart -> cart_unique cart ->
  cart_unique (cart ++ [{| productId := pid; quantity := q |}]).
Proof.
  unfold cart_unique. intros Hno Hu. rewrite fmap_app. apply NoDup_app.
  split; [done|]. split; [|apply NoDup_singleton].
  intros x Hx Hin. apply list_elem_of_singleton in Hin as ->.
  apply list_elem_of_fmap in Hx as (item & Hp & Hin). by apply (Hno item).
Qed.

Lemma cart_unique_delete i cart : cart_unique cart -> cart_unique (delete i cart).
Proof.
  unfold cart_unique. intros Hu. eapply sublist_NoDup; [exact Hu|].
  rewrite list_fmap_delete. apply sublist_delete.
Qed.

Lemma cart_unique_alter q i cart :
  cart_unique cart -> cart_unique (alter (set_quantity q) i cart).
Proof.
  unfold cart_unique. intros Hu.
  rewrite (list_fmap_alter productId (set_quantity q) id).
  - by rewrite list_alter_id.
  - by apply Forall_forall.
Qed.

Lemma cart_unique_filter p cart :
  cart_unique cart -> cart_unique (filter (fun item => productId item <> p) cart).
Proof.
  unfold cart_unique. intros Hu. eapply sublist_NoDup; [exact Hu|].
  apply fmap_sublist, sublist_filter.
Qed.

(** A handler leaves the stored state as it is, or writes one cart, of the
    calling user, that satisfies the schema and is unique by product when
    the cart before was. *)
Lemma handle_state u r db :
  (handle u r db).1 = db
  \/ exists cart0 cart,
       users db !! u = Some cart0 /\ cart_valid cart /\
       (cart_unique cart0 -> cart_unique cart) /\
       (handle u r db).1 = store u cart db.
Proof.
  destruct r as [|pid quantity|pid quantity|pid|]; simpl.
  - left. unfold getCart. by destruct (users db !! u).
  - unfold addToCart. destruct pid as [pid|], quantity as [q|]; auto.
    destruct (_ || _); auto.
    destruct (users db !! u) as [cart|] eqn:Hu; auto.
    destruct (products db !! pid) as [product|]; auto.
    unfold add_body.
    destruct (add_map product pid q false cart) as [[found cart1]|[]] eqn:Em;
      simpl; auto.
    pose proof (add_map_ids _ _ _ _ _ _ _ Em) as Hids.
    pose proof (add_map_found _ _ _ _ _ _ _ Em) as Hfound. simpl in Hfound.
    destruct found; simpl.
    + destruct (save u _ db) as [db1|[]] eqn:Es; simpl; auto.
      apply save_Return in Es as [Hv ->]. right. exists cart, cart1.
      repeat split; try done. unfold cart_unique. by rewrite Hids.
    + destruct (Num.ltb (stock product) q); simpl; auto.
      destruct (save u _ db) as [db1|[]] eqn:Es; simpl; auto.
      apply save_Return in Es as [Hv ->]. right. exists cart. eexists.
      repeat split; try done. intros Hun.
      unfold cart_unique. rewrite fmap_app, Hids, <- fmap_app.
      apply cart_unique_push; [|done]. by apply no_line_existsb.
  - unfold updateQuantity. destruct quantity as [q|]; auto.
    destruct (Num.ltb q 0); auto.
    destruct (users db !! u) as [cart|] eqn:Hu; auto.
    destruct (findIndex (is_product pid) cart) as [i|]; auto.
    destruct (products db !! pid) as [product|]; auto.
    unfold update_body. destruct (Num.eqb q 0); simpl.
    + destruct (save u _ db) as [db1|[]] eqn:Es; simpl; auto.
      apply save_Return in Es as [Hv ->]. right. exists cart. eexists.
      repeat split; try done. apply cart_unique_delete.
    + destruct (Num.ltb (stock product) q); simpl; auto.
      destruct (save u _ db) as [db1|[]] eqn:Es; simpl; auto.
      apply save_Return in Es as [Hv ->]. right. exists cart. eexists.
      repeat split; try done. apply cart_unique_alter.
  - unfold removeFromCart. destruct (users db !! u) as [cart|] eqn:Hu; auto.
    cbv zeta. destruct (save u _ db) as [db1|[]] eqn:Es; simpl; auto.
    apply save_Return in Es as [Hv ->]. right. exists cart. eexists.
    repeat split; try done. apply cart_unique_filter.
  - unfold clearCart. destruct (users db !! u) as [cart|] eqn:Hu; auto.
    destruct (save u _ db) as [db1|[]] eqn:Es; simpl; auto.
    apply save_Return in Es as [Hv ->]. right. exists cart, [].
    repeat split; try done. intros _. apply NoDup_nil_2.
Qed.

Lemma store_valid u cart db : cart_valid cart -> db_valid db -> db_valid (store u cart db).
Proof.
  intros Hc Hdb u' cart' Hl. simpl in Hl.
  destruct (decide (u = u')) as [<-|Hne].
  - rewrite lookup_insert_eq in Hl. by simplify_eq.
  - rewrite lookup_insert_ne in Hl by done. by apply (Hdb u').
Qed.

Lemma handle_valid u r db : db_valid db -> db_valid (handle u r db).1.
Proof.
  intros Hdb. destruct (handle_state u r db) as [-> | (cart0 & cart & _ & Hv & _ & ->)];
    [done|].
  by apply store_valid.
Qed.

(** Uniqueness by product is an invariant of the stored state as well. *)
Lemma handle_unique u r db : db_unique db -> db_unique (handle u r db).1.
Proof.
  intros Hdb.
  destruct (handle_state u r db) as [-> | (cart0 & cart & Hu & _ & Hun & ->)]; [done|].
  intros u' cart' Hl. simpl in Hl.
  destruct (decide (u = u')) as [<-|Hne].
  - rewrite lookup_insert_eq in Hl. simplify_eq. apply Hun. by apply (Hdb u).
  - rewrite lookup_insert_ne in Hl by done. by apply (Hdb u').
Qed.

(** Every state reached from a state of valid, unique carts (a store of empty
    carts, as registration creates them, is one) has valid, unique carts. *)
Lemma run_valid_unique reqs db :
  db_valid db -> db_unique db -> db_valid (run reqs db) /\ db_unique (run reqs db).
Proof.
  revert db. induction reqs as [|[u r] reqs IH]; intros db Hv Hu; simpl; [done|].
  apply IH; [by apply handle_valid|by apply handle_unique].
Qed.

(** A quantity between 0 and 1 passes the guard of the add handler and is
    refused by the schema when the document is saved: the answer is 500 and
    nothing is stored. *)
Lemma addToCart_half_refused :
  addToCart "u" (Some "p1"%string) (Some (1 # 2)%Q) Examples.db0
    = (Examples.db0, Internal).
Proof. reflexivity. Qed.

(** The add handler stores a quantity that is not an integer: the stored
    quantities of [db0] are positive integers (there is none), those of the
    state after adding 3/2 of [p1] are not. *)
Lemma addToCart_stores_fraction :
  db_integral Examples.db0 /\
  handle "u" (AddToCart (Some "p1"%string) (Some (3 # 2)%Q)) Examples.db0
    = (store "u" [Examples.line "p1" (3 # 2)] Examples.db0,
       Ok [{| product := Some ("p1"%string, Examples.p1); pquantity := (3 # 2)%Q |}]) /\
  Num.isInteger (3 # 2) = false /\
  ~ db_integral
      (handle "u" (AddToCart (Some "p1"%string) (Some (3 # 2)%Q)) Examples.db0).1.
Proof.
  split; [|split; [|split]].
  - intros u cart Hl. unfold Examples.db0 in Hl. simpl in Hl.
    apply lookup_singleton_Some in Hl as [_ <-]. constructor.
  - reflexivity.
  - reflexivity.
  - intros H.
    specialize (H "u"%string [Examples.line "p1" (3 # 2)] eq_refl).
    apply Forall_singleton in H as [_ H]. discriminate H.
Qed.

(** C4 (amended).  The schema is an invariant of the stored state under the
    five operations, for a request whose quantity is a number or absent:
    when every stored line has a quantity of at least 1, so has every stored
    line after the operation; in particular no line with quantity 0 (or
    below) is stored, and a successful update to a quantity equal to 0
    stores the cart without the line.  (Whether a quantity is an integer is
    not looked at.) *)
Theorem handle_preserves_schema u r db :
  db_valid db ->
  db_valid (handle u r db).1
  /\ (forall u' cart item,
        users (handle u r db).1 !! u' = Some cart -> item ∈ cart ->
        (1 <= quantity item)%Q /\ (0 < quantity item)%Q /\ ~ (quantity item == 0)%Q)
  /\ (forall p q cart l1 e l2,
        r = UpdateQuantity p (Some q) -> (q == 0)%Q ->
        users db !! u = Some cart ->
        cart = l1 ++ {| productId := p; quantity := e |} :: l2 ->
        no_line p l1 ->
        status (handle u r db).2 = 200 ->
        users (handle u r db).1 !! u = Some (l1 ++ l2)).
Proof.
  intros Hdb. pose proof (handle_valid u r db Hdb) as Hv.
  split; [exact Hv|]. split.
  - intros u' cart item Hl Hin. specialize (Hv u' cart Hl).
    unfold cart_valid in Hv. rewrite Forall_forall in Hv. specialize (Hv item Hin).
    assert (H0 : (0 < quantity item)%Q).
    { eapply Qlt_le_trans; [|exact Hv]. reflexivity. }
    split; [done|]. split; [done|].
    intros E. rewrite E in H0. by apply Qlt_irrefl in H0.
  - intros p q cart l1 e l2 -> Hq Hu Hc Hl1. cbn [handle].
    destruct (products db !! p) as [product|] eqn:Hp.
    + rewrite (updateQuantity_zero db u p q cart l1 e l2 product); try done.
      * intros _. apply store_lookup.
      * by apply (Hdb u).
    + assert (Hline : ~ no_line p cart).
      { intros Hno. apply (Hno {| productId := p; quantity := e |}); [|done].
        rewrite Hc. apply elem_of_app. right. left. }
      assert (H0 : (0 <= q)%Q) by (rewrite Hq; discriminate).
      unfold updateQuantity. apply NumFacts.ltb_ge in H0. rewrite H0, Hu.
      destruct (findIndex (is_product p) cart) as [i|] eqn:Ei.
      * rewrite Hp. simpl. done.
      * simpl. done.
Qed.

Lemma handle_preserves_schema_witness :
  db_valid Examples.db3 /\
  db_valid (handle "u" (AddToCart (Some "p1"%string) (Some 2%Q)) Examples.db3).1 /\
  users (handle "u" (UpdateQuantity "p1" (Some 0%Q)) Examples.db3).1 !! "u"%string
    = Some [].
Proof.
  assert (Hdb : db_valid Examples.db3).
  { intros u cart Hl. unfold Examples.db3, Examples.db0, store in Hl. simpl in Hl.
    rewrite insert_singleton_eq in Hl.
    apply lookup_singleton_Some in Hl as [_ <-].
    apply Forall_singleton. discriminate. }
  split; [exact Hdb|]. split.
  - exact (proj1 (handle_preserves_schema "u" _ Examples.db3 Hdb)).
  - refine (proj2 (proj2 (handle_preserves_schema "u" _ Examples.db3 Hdb))
              "p1"%string 0%Q [Examples.line "p1" 3] [] 3%Q [] _ _ _ _ _ _);
      try reflexivity.
    intros item Hin. by apply elem_of_nil in Hin.
Defined.

End Invariant.

(** ** More on the cart handlers: what a call can and cannot change *)

Section Effects.

Implicit Types (db : Db) (cart : list CartItem) (item : CartItem).
Implicit Types (u p : string) (q : Q) (r : Request).

(** The three ways a handler ends: an error answer with the store of before,
    the cart of the user read and answered, or one cart written and answered
    (the clear handler answers its message instead). *)
Lemma handle_cases u r db :
  (exists resp, handle u r db = (db, resp) /\ status resp <> 200)
  \/ (r = GetCart /\ exists cart,
        users db !! u = Some cart /\ handle u r db = (db, Ok (populate db cart)))
  \/ (exists cart0 cart resp,
        users db !! u = Some cart0 /\ cart_valid cart /\
        handle u r db = (store u cart db, resp) /\
        (resp = Ok (populate db cart) \/ (r = ClearCart /\ resp = Cleared /\ cart = []))).
Proof.
  assert (Herr : forall resp, status resp <> 200 ->
            exists resp', (db, resp) = (db, resp') /\ status resp' <> 200) by eauto.
  destruct r as [|pid quantity|pid quantity|pid|]; cbn [handle].
  - unfold getCart. destruct (users db !! u) as [cart|] eqn:Hu.
    + right. left. eauto.
    + left. by apply Herr.
  - unfold addToCart. destruct pid as [pid|], quantity as [q|];
      try (left; by apply Herr).
    destruct (_ || _); [left; by apply Herr|].
    destruct (users db !! u) as [cart|] eqn:Hu; [|left; by apply Herr].
    destruct (products db !! pid) as [product|]; [|left; by apply Herr].
    unfold add_body.
    destruct (add_map product pid q false cart) as [[found cart1]|[]];
      simpl; try (left; by apply Herr).
    destruct (negb found); simpl.
    + destruct (Num.ltb (stock product) q); simpl; [left; by apply Herr|].
      destruct (save u _ db) as [db1|[]] eqn:Es; simpl; try (left; by apply Herr).
      apply save_Return in Es as [Hv ->]. right. right. eauto 10.
    + destruct (save u _ db) as [db1|[]] eqn:Es; simpl; try (left; by apply Herr).
      apply save_Return in Es as [Hv ->]. right. right. eauto 10.
  - unfold updateQuantity. destruct quantity as [q|]; [|left; by apply Herr].
    destruct (Num.ltb q 0); [left; by apply Herr|].
    destruct (users db !! u) as [cart|] eqn:Hu; [|left; by apply Herr].
    destruct (findIndex (is_product pid) cart) as [i|]; [|left; by apply Herr].
    destruct (products db !! pid) as [product|]; [|left; by apply Herr].
    unfold update_body. destruct (Num.eqb q 0); simpl.
    + destruct (save u _ db) as [db1|[]] eqn:Es; simpl; try (left; by apply Herr).
      apply save_Return in Es as [Hv ->]. right. right. eauto 10.
    + destruct (Num.ltb (stock product) q); simpl; [left; by apply Herr|].
      destruct (save u _ db) as [db1|[]] eqn:Es; simpl; try (left; by apply Herr).
      apply save_Return in Es as [Hv ->]. right. right. eauto 10.
  - unfold removeFromCart. destruct (users db !! u) as [cart|] eqn:Hu;
      [|left; by apply Herr].
    cbv zeta. destruct (save u _ db) as [db1|[]] eqn:Es; simpl;
      try (left; by apply Herr).
    apply save_Return in Es as [Hv ->]. right. right. eauto 10.
  - unfold clearCart. destruct (users db !! u) as [cart|] eqn:Hu;
      [|left; by apply Herr].
    destruct (save u _ db) as [db1|[]] eqn:Es; simpl; try (left; by apply Herr).
    apply save_Return in Es as [Hv ->]. right. right.
    exists cart, [], Cleared. eauto 10.
Qed.

(** X1.  No sequence of cart requests, of whatever users, changes the
    Product collection: stock is read by the cart handlers, never written. *)
Theorem run_keeps_products reqs db : products (run reqs db) = products db.
Proof.
  revert db. induction reqs as [|[u r] reqs IH]; intros db; simpl; [done|].
  rewrite IH.
  destruct (handle_state u r db) as [-> | (cart0 & cart & _ & _ & _ & ->)]; done.
Qed.

(** X2.  A cart request of user [u] leaves the cart of every other user as
    it is, and neither creates nor deletes a user document. *)
Theorem handle_other_users u u' r db :
  u <> u' ->
  users (handle u r db).1 !! u' = users db !! u'
  /\ dom (users (handle u r db).1) = dom (users db).
Proof.
  intros Hne.
  destruct (handle_state u r db) as [-> | (cart0 & cart & Hu & _ & _ & ->)]; [done|].
  simpl. split.
  - by apply lookup_insert_ne.
  - rewrite dom_insert_L. apply elem_of_dom_2 in Hu.
    apply (anti_symm (⊆)).
    + apply union_subseteq. split; [by apply singleton_subseteq_l|done].
    + apply union_subseteq_r.
Qed.

Lemma handle_other_users_witness :
  users (handle "u" (AddToCart (Some "p1"%string) (Some 2%Q))
           (store "v" [Examples.line "p1" 1] Examples.db3)).1 !! "v"%string
    = Some [Examples.line "p1" 1].
Proof.
  assert (Hne : "u"%string <> "v"%string) by discriminate.
  rewrite (proj1 (handle_other_users "u" "v" _ _ Hne)). reflexivity.
Defined.

(** X3.  Whenever one of the five handlers answers an error (a status other
    than 200), the stored state is the one before the call. *)
Theorem handle_error_unchanged u r db :
  status (handle u r db).2 <> 200 -> (handle u r db).1 = db.
Proof.
  intros Hs.
  destruct (handle_cases u r db)
    as [(resp & -> & _) | [(_ & cart & _ & ->) | (c0 & c & resp & _ & _ & E & Hr)]];
    [done..|].
  rewrite E in Hs. simpl in Hs.
  destruct Hr as [-> | (_ & -> & _)]; done.
Qed.

Lemma handle_error_unchanged_witness :
  (handle "u" (UpdateQuantity "p1" (Some 6%Q)) Examples.db3).1 = Examples.db3.
Proof. apply handle_error_unchanged. discriminate. Defined.

(** X4.  The answer of a successful add, update or remove is the cart the
    cart handler answers on the resulting state. *)
Theorem handle_answer_is_getCart u r db answer :
  (handle u r db).2 = Ok answer ->
  getCart u (handle u r db).1 = ((handle u r db).1, Ok answer).
Proof.
  intros Ha.
  destruct (handle_cases u r db)
    as [(resp & E & Hs) | [(_ & cart & Hu & E) | (c0 & c & resp & _ & _ & E & Hr)]];
    rewrite E in Ha |- *; simpl in Ha |- *.
  - subst resp. done.
  - unfold getCart. rewrite Hu. by simplify_eq.
  - destruct Hr as [-> | (_ & -> & _)]; [|done].
    unfold getCart. rewrite store_lookup. by simplify_eq.
Qed.

Lemma handle_answer_is_getCart_witness :
  getCart "u" (handle "u" (UpdateQuantity "p1" (Some 5%Q)) Examples.db3).1
    = ((handle "u" (UpdateQuantity "p1" (Some 5%Q)) Examples.db3).1,
       Ok (populate Examples.db3 [Examples.line "p1" 5])).
Proof. apply handle_answer_is_getCart. reflexivity. Defined.

(** X5.  For a user the store does not have, every handler answers an
    error, [NotFound] for the user or [InvalidArgument] for the arguments,
    and the store is the one before the call. *)
Theorem handle_unknown_user u r db :
  users db !! u = None ->
  (handle u r db).1 = db
  /\ ((handle u r db).2 = NotFound NoUser \/ (handle u r db).2 = InvalidArgument).
Proof.
  intros Hu. destruct r as [|pid quantity|pid quantity|pid|]; cbn [handle].
  - unfold getCart. rewrite Hu. auto.
  - unfold addToCart. destruct pid as [pid|], quantity as [q|]; auto.
    destruct (_ || _); auto. rewrite Hu. auto.
  - unfold updateQuantity. destruct quantity as [q|]; auto.
    destruct (Num.ltb q 0); auto. rewrite Hu. auto.
  - unfold removeFromCart. rewrite Hu. auto.
  - unfold clearCart. rewrite Hu. auto.
Qed.

Lemma handle_unknown_user_witness :
  users Examples.db3 !! "nobody"%string = None /\
  (handle "nobody" ClearCart Examples.db3).1 = Examples.db3.
Proof.
  assert (Hu : users Examples.db3 !! "nobody"%string = None) by reflexivity.
  split; [exact Hu|].
  exact (proj1 (handle_unknown_user "nobody" ClearCart Examples.db3 Hu)).
Defined.

End Effects.

(** ** More on the add and update handlers *)

Section Admission.

Implicit Types (db : Db) (cart : list CartItem) (item : CartItem).
Implicit Types (u p : string) (q : Q) (product : Product).

(** X6.  The add handler answers [InvalidArgument] when the body has no
    [productId] or an empty one, no [quantity], or a [quantity] of 0 or
    below, whatever the stored state is; nothing is stored. *)
Theorem addToCart_invalid u (productId : option string) (quantity : option Q) db :
  productId = None \/ productId = Some ""%string \/ quantity = None
  \/ (exists q, quantity = Some q /\ (q <= 0)%Q) ->
  addToCart u productId quantity db = (db, InvalidArgument).
Proof.
  unfold addToCart. intros [-> | [-> | [-> | (q & -> & Hq)]]].
  - done.
  - by destruct quantity.
  - by destruct productId.
  - destruct productId as [pid|]; [|done].
    apply NumFacts.leb_le in Hq. by rewrite Hq, orb_true_r.
Qed.

Lemma addToCart_invalid_witness :
  addToCart "u" (Some "p1"%string) (Some 0%Q) Examples.db3 = (Examples.db3, InvalidArgument)
  /\ addToCart "u" (Some ""%string) (Some 1%Q) Examples.db3 = (Examples.db3, InvalidArgument)
  /\ addToCart "nobody" None None Examples.db3 = (Examples.db3, InvalidArgument).
Proof.
  split; [|split].
  - apply addToCart_invalid. right. right. right. exists 0%Q. split; [reflexivity|discriminate].
  - apply addToCart_invalid. right. by left.
  - apply addToCart_invalid. by left.
Defined.

(** A canonical id string is not empty. *)
Lemma isObjectIdString_nonempty p : isObjectIdString p = true -> p <> ""%string.
Proof. intros H ->. discriminate H. Qed.

(** X7.  Adding a product whose id, in canonical form, is not in the
    catalog answers [NotFound] and stores nothing, whatever the cart
    holds. *)
Theorem addToCart_product_missing db u p q cart :
  users db !! u = Some cart ->
  isObjectIdString p = true ->
  (0 < q)%Q ->
  products db !! p = None ->
  addToCart u (Some p) (Some q) db = (db, NotFound NoProduct).
Proof.
  intros Hu Hid Hq Hp. unfold addToCart.
  rewrite add_guard_pass, Hu, Hp; [done| |done].
  by apply isObjectIdString_nonempty.
Qed.

Lemma addToCart_product_missing_witness :
  users Hex.db !! "u"%string = Some [] /\
  isObjectIdString Hex.gone = true /\
  addToCart "u" (Some Hex.gone) (Some 1%Q) Hex.db = (Hex.db, NotFound NoProduct).
Proof.
  assert (Hu : users Hex.db !! "u"%string = Some []) by reflexivity.
  split; [exact Hu|]. split; [reflexivity|].
  apply (addToCart_product_missing _ _ _ _ _ Hu); reflexivity.
Defined.

(** [user.cart.map] in the add handler returns lines for the product within
    its stock only. *)
Lemma add_map_within_stock product pid q found cart found' cart' :
  add_map product pid q found cart = Return (found', cart') ->
  forall item, item ∈ cart' -> productId item = pid ->
               (quantity item <= stock product)%Q.
Proof.
  revert found found' cart'.
  induction cart as [|x cart IH]; simpl; intros found found' cart'.
  - intros [= <- <-] item Hin. by apply elem_of_nil in Hin.
  - destruct (is_product pid x) eqn:Ep.
    + rewrite add_item_product by done.
      destruct (Num.add (quantity x) q) as [total|]; [|done].
      destruct (Num.ltb _ _) eqn:El; simpl; [done|].
      destruct (add_map product pid q true cart) as [[f c]|] eqn:E; simpl; [|done].
      intros [= <- <-] item Hin Hp. apply elem_of_cons in Hin as [->|Hin].
      * simpl. by apply NumFacts.ltb_ge.
      * by eapply IH.
    + rewrite add_item_other by done. simpl.
      destruct (add_map product pid q found cart) as [[f c]|] eqn:E; simpl; [|done].
      intros [= <- <-] item Hin Hp. apply elem_of_cons in Hin as [->|Hin].
      * apply is_product_false in Ep. done.
      * by eapply IH.
Qed.

(** X8.  A successful add was admitted against the stock read at the call:
    the quantity sent is positive, and the stored cart has a line for the
    product, each such line with a quantity between 1 and [product.stock]. *)
Theorem addToCart_success_within_stock u p q db product answer :
  products db !! p = Some product ->
  (addToCart u (Some p) (Some q) db).2 = Ok answer ->
  (0 < q)%Q
  /\ exists cart',
       users (addToCart u (Some p) (Some q) db).1 !! u = Some cart'
       /\ (exists item, item ∈ cart' /\ productId item = p)
       /\ forall item, item ∈ cart' -> productId item = p ->
            (1 <= quantity item)%Q /\ (quantity item <= stock product)%Q.
Proof.
  intros Hp. unfold addToCart.
  destruct (String.eqb p "" || Num.leb q 0) eqn:Eg; [done|].
  apply orb_false_iff in Eg as [_ Hq%NumFacts.leb_gt].
  destruct (users db !! u) as [cart|] eqn:Hu; [|done].
  rewrite Hp. unfold add_body.
  destruct (add_map product p q false cart) as [[found cart1]|[]] eqn:Em; simpl; try done.
  pose proof (add_map_within_stock _ _ _ _ _ _ _ Em) as Hin_stock.
  pose proof (add_map_ids _ _ _ _ _ _ _ Em) as Hids.
  pose proof (add_map_found _ _ _ _ _ _ _ Em) as Hfound. simpl in Hfound.
  assert (Hgoal : forall cart2,
            cart_valid cart2 ->
            (exists item, item ∈ cart2 /\ productId item = p) ->
            (forall item, item ∈ cart2 -> productId item = p ->
                          (quantity item <= stock product)%Q) ->
            (0 < q)%Q /\ exists cart',
              users (store u cart2 db) !! u = Some cart'
              /\ (exists item, item ∈ cart' /\ productId item = p)
              /\ forall item, item ∈ cart' -> productId item = p ->
                   (1 <= quantity item)%Q /\ (quantity item <= stock product)%Q).
  { intros cart2 Hv Hex Hst. split; [done|]. exists cart2.
    split; [apply store_lookup|]. split; [done|].
    intros item Hin Hpid. split; [|by apply Hst].
    unfold cart_valid in Hv. rewrite Forall_forall in Hv. by apply Hv. }
  destruct found; simpl.
  - destruct (save u cart1 db) as [db1|[]] eqn:Es; simpl; try done.
    apply save_Return in Es as [Hv ->]. intros _. apply Hgoal; [done| |done].
    symmetry in Hfound. apply existsb_exists in Hfound as (x & Hx & Hpx).
    apply is_product_true in Hpx. apply list_elem_of_In in Hx.
    assert (Hpid : p ∈ productId <$> cart1).
    { rewrite Hids, <- Hpx. by apply list_elem_of_fmap_2. }
    apply list_elem_of_fmap in Hpid as (y & Hy & Hiny). eauto.
  - destruct (Num.ltb (stock product) q) eqn:El; simpl; [done|].
    apply NumFacts.ltb_ge in El.
    destruct (save u _ db) as [db1|[]] eqn:Es; simpl; try done.
    apply save_Return in Es as [Hv ->]. intros _. apply Hgoal; [done| |].
    + exists {| productId := p; quantity := q |}. split; [|done].
      apply elem_of_app. right. left.
    + intros item Hin Hpid. apply elem_of_app in Hin as [Hin|Hin].
      * by apply Hin_stock.
      * by apply list_elem_of_singleton in Hin as ->.
Qed.

Lemma addToCart_success_within_stock_witness :
  products Examples.db3 !! "p1"%string = Some Examples.p1 /\
  exists cart',
    users (addToCart "u" (Some "p1"%string) (Some 2%Q) Examples.db3).1 !! "u"%string
      = Some cart'
    /\ forall item, item ∈ cart' -> productId item = "p1"%string ->
         (1 <= quantity item)%Q /\ (quantity item <= 5)%Q.
Proof.
  assert (Hp : products Examples.db3 !! "p1"%string = Some Examples.p1) by reflexivity.
  split; [exact Hp|].
  destruct (addToCart_success_within_stock "u" "p1" 2 Examples.db3 Examples.p1 _ Hp eq_refl)
    as (_ & cart' & Hc & _ & Hall).
  exists cart'. split; [exact Hc|exact Hall].
Defined.

(** The update handler with a quantity of at least 1 within the stock. *)
Lemma updateQuantity_set db u p q cart l1 e l2 product :
  users db !! u = Some cart ->
  cart = l1 ++ {| productId := p; quantity := e |} :: l2 ->
  no_line p l1 ->
  products db !! p = Some product ->
  cart_valid cart ->
  (1 <= q)%Q ->
  (q <= stock product)%Q ->
  updateQuantity u p (Some q) db
    = (store u (l1 ++ {| productId := p; quantity := q |} :: l2) db,
       Ok (populate db (l1 ++ {| productId := p; quantity := q |} :: l2))).
Proof.
  intros Hu Hc Hl1 Hp Hv Hq Hs.
  assert (Hpos : (0 < q)%Q) by (eapply Qlt_le_trans; [|exact Hq]; reflexivity).
  assert (Hz : Num.eqb q 0 = false).
  { destruct (Num.eqb q 0) eqn:E; [|done]. apply NumFacts.eqb_eq in E.
    rewrite E in Hpos. by apply Qlt_irrefl in Hpos. }
  rewrite (updateQuantity_unfold db u p q cart l1 e l2 product);
    [|done|by apply Qlt_le_weak|done..].
  unfold update_body. rewrite Hz. apply NumFacts.ltb_ge in Hs. rewrite Hs. simpl.
  assert (Ha : alter (set_quantity q) (length l1) cart
               = l1 ++ {| productId := p; quantity := q |} :: l2).
  { rewrite Hc, alter_middle. reflexivity. }
  rewrite Ha, save_valid; [done|].
  unfold cart_valid in *. rewrite Hc in Hv.
  apply Forall_app in Hv as [H1 H2]. apply Forall_cons in H2 as [_ H2].
  apply Forall_app. split; [done|]. by apply Forall_cons.
Qed.

(** X9.  A successful update whose quantity is a number other than 0 was
    admitted against the stock read at the call: the number is between 1
    and [product.stock], and the stored cart has the line [(p, q)]. *)
Theorem updateQuantity_success_within_stock u p q db product answer :
  products db !! p = Some product ->
  (updateQuantity u p (Some q) db).2 = Ok answer ->
  ~ (q == 0)%Q ->
  (1 <= q)%Q /\ (q <= stock product)%Q
  /\ exists cart',
       users (updateQuantity u p (Some q) db).1 !! u = Some cart'
       /\ {| productId := p; quantity := q |} ∈ cart'.
Proof.
  intros Hp Hok Hnz. revert Hok. unfold updateQuantity.
  destruct (Num.ltb q 0); [done|].
  destruct (users db !! u) as [cart|] eqn:Hu; [|done].
  destruct (findIndex (is_product p) cart) as [i|] eqn:Ei; [|done].
  rewrite Hp. unfold update_body.
  destruct (Num.eqb q 0) eqn:Ez; [by apply NumFacts.eqb_eq in Ez|].
  destruct (Num.ltb (stock product) q) eqn:El; simpl; [done|].
  apply NumFacts.ltb_ge in El.
  apply findIndex_Some in Ei as (l1 & [p' e] & l2 & -> & <- & Hx & _).
  apply is_product_true in Hx. simpl in Hx. subst p'.
  rewrite alter_middle.
  destruct (save u _ db) as [db1|[]] eqn:Es; simpl; try done.
  apply save_Return in Es as [Hv ->]. intros _.
  assert (Hin : {| productId := p; quantity := q |}
                ∈ l1 ++ set_quantity q {| productId := p; quantity := e |} :: l2).
  { apply elem_of_app. right. left. }
  split; [|split; [done|]].
  - unfold cart_valid in Hv. rewrite Forall_forall in Hv. by apply (Hv _ Hin).
  - eexists. split; [apply store_lookup|exact Hin].
Qed.

Lemma updateQuantity_success_within_stock_witness :
  products Examples.db3 !! "p1"%string = Some Examples.p1 /\
  exists cart',
    users (updateQuantity "u" "p1" (Some 4%Q) Examples.db3).1 !! "u"%string = Some cart'
    /\ Examples.line "p1" 4 ∈ cart'.
Proof.
  assert (Hp : products Examples.db3 !! "p1"%string = Some Examples.p1) by reflexivity.
  split; [exact Hp|].
  destruct (updateQuantity_success_within_stock "u" "p1" 4 Examples.db3 Examples.p1 _
              Hp eq_refl) as (_ & _ & H); [discriminate|].
  exact H.
Defined.

End Admission.

(** ** How the cart operations compose *)

Section Composition.

Implicit Types (db : Db) (cart : list CartItem) (item : CartItem).
Implicit Types (u p : string) (q : Q) (product : Product).

(** X10.  No sequence of cart requests that name their products by
    canonical id strings gives a cart two lines for the same product: carts
    unique by product stay unique. *)
Theorem run_keeps_unique reqs db :
  Forall (fun request => canonical_request request.2) reqs ->
  db_unique db -> db_unique (run reqs db).
Proof.
  intros Hc. revert db.
  induction Hc as [|[u r] reqs _ _ IH]; intros db Hu; simpl; [done|].
  by apply IH, handle_unique.
Qed.

Lemma run_keeps_unique_witness :
  db_unique Hex.db /\
  db_unique (run [("u"%string, AddToCart (Some Hex.p) (Some 1%Q));
                  ("u"%string, AddToCart (Some Hex.p) (Some 1%Q));
                  ("u"%string, UpdateQuantity Hex.p (Some 2%Q))] Hex.db).
Proof.
  assert (Hdb : db_unique Hex.db).
  { intros u cart Hl. unfold Hex.db in Hl. simpl in Hl.
    apply lookup_singleton_Some in Hl as [_ <-]. apply NoDup_nil_2. }
  split; [exact Hdb|]. apply run_keeps_unique; [|exact Hdb].
  repeat constructor.
Defined.

(** X11.  Adding a product the cart does not have and removing it again
    gives back the stored state of before. *)
Theorem add_then_remove db u p q product cart :
  users db !! u = Some cart ->
  products db !! p = Some product ->
  p <> ""%string ->
  cart_valid cart ->
  no_line p cart ->
  (1 <= q)%Q ->
  (q <= stock product)%Q ->
  (removeFromCart u p (addToCart u (Some p) (Some q) db).1).1 = db.
Proof.
  intros Hu Hp Hne Hv Hno Hq Hs.
  rewrite (addToCart_push db u p q product cart) by done. cbn [fst].
  assert (Hv' : cart_valid (cart ++ [{| productId := p; quantity := q |}])).
  { apply Forall_app. split; [done|]. by apply Forall_singleton. }
  rewrite (removeFromCart_valid _ u p _ (store_lookup _ _ _) Hv'). cbn [fst].
  rewrite filter_app, (filter_no_line p cart Hno).
  rewrite filter_cons_False by (simpl; tauto).
  rewrite filter_nil, app_nil_r, store_store. by apply store_id.
Qed.

Lemma add_then_remove_witness :
  users Examples.db0 !! "u"%string = Some [] /\
  (removeFromCart "u" "p1"
     (addToCart "u" (Some "p1"%string) (Some 2%Q) Examples.db0).1).1 = Examples.db0.
Proof.
  assert (Hu : users Examples.db0 !! "u"%string = Some []) by reflexivity.
  split; [exact Hu|].
  apply (add_then_remove Examples.db0 "u" "p1" 2 Examples.p1 [] Hu).
  - reflexivity.
  - discriminate.
  - apply Forall_nil_2.
  - intros item Hin. by apply elem_of_nil in Hin.
  - discriminate.
  - discriminate.
Defined.

(** X12.  The update handler sets, it does not accumulate: of two successive
    updates of a line the second alone decides the stored state and the
    answer. *)
Theorem update_then_update db u p q1 q2 product cart :
  users db !! u = Some cart ->
  ~ no_line p cart ->
  products db !! p = Some product ->
  cart_valid cart ->
  (1 <= q1)%Q -> (q1 <= stock product)%Q ->
  (1 <= q2)%Q -> (q2 <= stock product)%Q ->
  updateQuantity u p (Some q2) (updateQuantity u p (Some q1) db).1
    = updateQuantity u p (Some q2) db.
Proof.
  intros Hu Hline Hp Hv Hq1 Hs1 Hq2 Hs2.
  destruct (first_line p cart Hline) as (l1 & e & l2 & Hc & Hl1).
  rewrite (updateQuantity_set db u p q1 cart l1 e l2 product) by done. cbn [fst].
  assert (Hv1 : cart_valid (l1 ++ {| productId := p; quantity := q1 |} :: l2)).
  { unfold cart_valid in *. rewrite Hc in Hv.
    apply Forall_app in Hv as [H1 H2]. apply Forall_cons in H2 as [_ H2].
    apply Forall_app. split; [done|]. by apply Forall_cons. }
  rewrite (updateQuantity_set (store u _ db) u p q2 _ l1 q1 l2 product
             (store_lookup _ _ _) eq_refl Hl1 Hp Hv1 Hq2 Hs2).
  rewrite (updateQuantity_set db u p q2 cart l1 e l2 product) by done.
  by rewrite store_store.
Qed.

Lemma update_then_update_witness :
  users Examples.db3 !! "u"%string = Some [Examples.line "p1" 3] /\
  updateQuantity "u" "p1" (Some 2%Q) (updateQuantity "u" "p1" (Some 5%Q) Examples.db3).1
    = updateQuantity "u" "p1" (Some 2%Q) Examples.db3.
Proof.
  assert (Hu : users Examples.db3 !! "u"%string = Some [Examples.line "p1" 3])
    by reflexivity.
  split; [exact Hu|].
  apply (update_then_update Examples.db3 "u" "p1" 5 2 Examples.p1 _ Hu).
  - intros Hno. by apply (Hno (Examples.line "p1" 3)); [left|].
  - reflexivity.
  - apply Forall_singleton. discriminate.
  - discriminate.
  - discriminate.
  - discriminate.
  - discriminate.
Defined.

(** X13.  Removing two products in either order gives the same stored
    state. *)
Theorem remove_then_remove db u p1 p2 cart :
  users db !! u = Some cart ->
  cart_valid cart ->
  (removeFromCart u p2 (removeFromCart u p1 db).1).1
    = (removeFromCart u p1 (removeFromCart u p2 db).1).1.
Proof.
  intros Hu Hv.
  rewrite (removeFromCart_valid db u p1 cart Hu Hv).
  rewrite (removeFromCart_valid db u p2 cart Hu Hv). cbn [fst].
  rewrite (removeFromCart_valid _ u p2 _ (store_lookup _ _ _) (cart_valid_filter p1 _ Hv)).
  rewrite (removeFromCart_valid _ u p1 _ (store_lookup _ _ _) (cart_valid_filter p2 _ Hv)).
  cbn [fst]. rewrite !store_store. f_equal.
  rewrite !list_filter_filter. apply list_filter_iff. intros x. tauto.
Qed.

Lemma remove_then_remove_witness :
  users Examples.db3 !! "u"%string = Some [Examples.line "p1" 3] /\
  (removeFromCart "u" "p2" (removeFromCart "u" "p1" Examples.db3).1).1
    = (removeFromCart "u" "p1" (removeFromCart "u" "p2" Examples.db3).1).1.
Proof.
  assert (Hu : users Examples.db3 !! "u"%string = Some [Examples.line "p1" 3])
    by reflexivity.
  split; [exact Hu|].
  apply (remove_then_remove Examples.db3 "u" "p1" "p2" _ Hu).
  apply Forall_singleton. discriminate.
Defined.

(** X14.  Two additions of a product the cart does not have, of integer
    quantities whose sum is within 2^53 and within the stock, leave one new
    line, with the sum of the two quantities, after the lines of before. *)
Theorem add_then_add db u p q1 q2 product cart :
  users db !! u = Some cart ->
  products db !! p = Some product ->
  p <> ""%string ->
  cart_valid cart ->
  no_line p cart ->
  Num.isInteger q1 = true -> Num.isInteger q2 = true ->
  (0 < q1)%Q -> (0 < q2)%Q ->
  (q1 + q2 <= Num.exact)%Q ->
  (q1 + q2 <= stock product)%Q ->
  exists total,
    users (addToCart u (Some p) (Some q2)
             (addToCart u (Some p) (Some q1) db).1).1 !! u
      = Some (cart ++ [{| productId := p; quantity := total |}])
    /\ (total == q1 + q2)%Q.
Proof.
  intros Hu Hp Hne Hv Hno Hi1 Hi2 Hp1 Hq2 Hex Hs.
  pose proof (NumFacts.integer_pos_ge_1 q1 Hi1 Hp1) as Hq1.
  set (l := {| productId := p; quantity := q1 |}).
  assert (Hs1 : (q1 <= stock product)%Q) by lra.
  assert (Hv1 : cart_valid (cart ++ [l])).
  { apply Forall_app. split; [done|]. by apply Forall_singleton. }
  assert (Hline : ~ no_line p (cart ++ [l])).
  { intros H. apply (H l); [|done]. apply elem_of_app. right. left. }
  destruct (total_exact_admitted (stock product) q1 q2 Hi1 Hi2 Hq1 Hq2 Hex Hs)
    as (total & Ht & Et & H1 & H2).
  assert (Hs2 : forall item, item ∈ cart ++ [l] -> productId item = p ->
                             total_admitted (stock product) (quantity item) q2).
  { intros item [Hin|Hin]%elem_of_app Hpid.
    - by destruct (Hno item Hin).
    - apply list_elem_of_singleton in Hin as ->. by exists total. }
  exists total. split; [|done].
  rewrite (addToCart_push db u p q1 product cart Hu Hp Hne Hq1 Hv Hno Hs1).
  cbn [fst]. fold l.
  rewrite (addToCart_increment _ u p q2 product (cart ++ [l]) (store_lookup _ _ _) Hp Hne
             Hq2 Hv1 Hline Hs2).
  cbn [fst]. rewrite store_lookup, fmap_app, (add_quantity_no_line p q2 cart Hno).
  simpl. unfold add_quantity.
  assert (E : is_product p l = true) by by apply is_product_true.
  rewrite E. unfold l at 1. cbn [quantity]. by rewrite Ht.
Qed.

Lemma add_then_add_witness :
  users Hex.db !! "u"%string = Some [] /\
  exists total,
    users (addToCart "u" (Some Hex.p) (Some 3%Q)
             (addToCart "u" (Some Hex.p) (Some 2%Q) Hex.db).1).1 !! "u"%string
      = Some [Examples.line Hex.p total]
    /\ (total == 2 + 3)%Q.
Proof.
  assert (Hu : users Hex.db !! "u"%string = Some []) by reflexivity.
  split; [exact Hu|].
  apply (add_then_add Hex.db "u" Hex.p 2 3 Examples.p1 [] Hu).
  - reflexivity.
  - discriminate.
  - apply Forall_nil_2.
  - intros item Hin. by apply elem_of_nil in Hin.
  - reflexivity.
  - reflexivity.
  - reflexivity.
  - reflexivity.
  - discriminate.
  - discriminate.
Defined.

End Composition.

(** ** The middleware and the routes behind it *)

Section Routes.

Implicit Types (db : Db) (cart : list CartItem) (item : CartItem).
Implicit Types (u p pid : string) (q : Q) (r : Request).
Implicit Types (verify : string -> option Auth.Claims) (authorization : option string).

(** [protect] calls [next()] on a header that starts with 'Bearer' and whose
    second piece, between spaces, is a non-empty token that verifies. *)
Lemma protect_inr verify authorization decoded :
  Auth.protect verify authorization = inr decoded ->
  exists header token,
    authorization = Some header /\ String.prefix "Bearer" header = true /\
    Auth.split " " header !! 1%nat = Some token /\ token <> ""%string /\
    verify token = Some decoded.
Proof.
  unfold Auth.protect. destruct authorization as [header|]; [|done].
  destruct (negb (String.eqb header "")); simpl; [|done].
  destruct (String.prefix "Bearer" header) eqn:Epre; [|done].
  unfold Auth.jwt_verify.
  destruct (Auth.split " " header !! 1%nat) as [token|] eqn:Et; [|done].
  destruct (String.eqb token "") eqn:Ee; [done|].
  destruct (verify token) as [c|] eqn:Ev; [|done].
  intros [= <-]. exists header, token. repeat split; try done.
  by apply String.eqb_neq.
Qed.

(** X15.  A request without an [Authorization] header, or with one that does
    not start with 'Bearer', is answered 401 by every cart route and by the
    product deletion route; the handler is not run and the store is the one
    before, whatever the verifier accepts. *)
Theorem routes_need_bearer verify authorization r pid db :
  authorization = None
  \/ (exists header, authorization = Some header /\ String.prefix "Bearer" header = false) ->
  cartRoute verify authorization r db = (db, Unauthorized Auth.NoToken)
  /\ deleteProductRoute verify authorization pid db = (db, Unauthorized Auth.NoToken).
Proof.
  intros H.
  assert (E : Auth.protect verify authorization = inl Auth.NoToken).
  { destruct H as [-> | (header & -> & Hp)]; [done|].
    unfold Auth.protect. by rewrite Hp, andb_false_r. }
  unfold cartRoute, deleteProductRoute. by rewrite E.
Qed.

Lemma routes_need_bearer_witness :
  cartRoute Tokens.verify (Some "bearer tok-u"%string) ClearCart Examples.db3
    = (Examples.db3, Unauthorized Auth.NoToken)
  /\ deleteProductRoute Tokens.verify None "p1" Examples.db3
    = (Examples.db3, Unauthorized Auth.NoToken).
Proof.
  split.
  - apply (routes_need_bearer Tokens.verify _ ClearCart "p1" Examples.db3).
    right. eexists. split; reflexivity.
  - apply (routes_need_bearer Tokens.verify None ClearCart "p1" Examples.db3).
    by left.
Defined.

(** X16.  A cart route changes the store only for a request that carries a
    token the verifier accepts, and then only the cart of the user the token
    names: every other cart and the Product collection are as before. *)
Theorem cartRoute_changes verify authorization r db :
  (cartRoute verify authorization r db).1 <> db ->
  exists header token decoded,
    authorization = Some header /\
    Auth.split " " header !! 1%nat = Some token /\
    verify token = Some decoded /\
    (forall u, u <> Auth.id decoded ->
       users (cartRoute verify authorization r db).1 !! u = users db !! u) /\
    products (cartRoute verify authorization r db).1 = products db.
Proof.
  unfold cartRoute.
  destruct (Auth.protect verify authorization) as [why|decoded] eqn:Ep; [done|].
  apply protect_inr in Ep as (header & token & -> & _ & Ht & _ & Hv).
  intros _. exists header, token, decoded. repeat split; try done.
  - intros u Hne.
    destruct (handle (Auth.id decoded) r db) as [db1 resp] eqn:E. simpl.
    replace db1 with (handle (Auth.id decoded) r db).1 by by rewrite E.
    destruct (handle_state (Auth.id decoded) r db)
      as [-> | (cart0 & cart & _ & _ & _ & ->)]; [done|].
    simpl. by apply lookup_insert_ne.
  - destruct (handle (Auth.id decoded) r db) as [db1 resp] eqn:E. simpl.
    replace db1 with (handle (Auth.id decoded) r db).1 by by rewrite E.
    destruct (handle_state (Auth.id decoded) r db)
      as [-> | (cart0 & cart & _ & _ & _ & ->)]; done.
Qed.

Lemma cartRoute_changes_witness :
  exists header token decoded,
    Some "Bearer tok-u"%string = Some header /\
    Auth.split " " header !! 1%nat = Some token /\
    Tokens.verify token = Some decoded.
Proof.
  destruct (cartRoute_changes Tokens.verify (Some "Bearer tok-u"%string)
              (AddToCart (Some "p1"%string) (Some 2%Q)) Examples.db3)
    as (header & token & decoded & H1 & H2 & H3 & _).
  - intros H. apply (f_equal (fun d => users d !! "u"%string)) in H.
    vm_compute in H. discriminate H.
  - exists header, token, decoded. split; [exact H1|]. split; [exact H2|exact H3].
Defined.

(** X17.  The product deletion route changes the store only for a request
    that carries a token the verifier accepts and that names an
    administrator, and only when the catalog has the product. *)
Theorem deleteProductRoute_changes verify authorization pid db :
  (deleteProductRoute verify authorization pid db).1 <> db ->
  exists header token decoded,
    authorization = Some header /\
    Auth.split " " header !! 1%nat = Some token /\
    verify token = Some decoded /\
    Auth.isAdmin decoded = true /\
    is_Some (products db !! pid).
Proof.
  unfold deleteProductRoute.
  destruct (Auth.protect verify authorization) as [why|decoded] eqn:Ep; [done|].
  apply protect_inr in Ep as (header & token & -> & _ & Ht & _ & Hv).
  simpl. destruct (Auth.isAdmin decoded) eqn:Ea; [|done].
  unfold deleteProduct. destruct (products db !! pid) as [product|] eqn:E; [|done].
  intros _. exists header, token, decoded.
  split; [done|]. split; [done|]. split; [done|]. split; [done|]. by exists product.
Qed.

Lemma deleteProductRoute_changes_witness :
  exists header token decoded,
    Some "Bearer tok-admin"%string = Some header /\
    Auth.split " " header !! 1%nat = Some token /\
    Tokens.verify token = Some decoded /\
    Auth.isAdmin decoded = true.
Proof.
  destruct (deleteProductRoute_changes Tokens.verify (Some "Bearer tok-admin"%string)
              "p1" Examples.db3)
    as (header & token & decoded & H1 & H2 & H3 & H4 & _).
  - intros H. apply (f_equal (fun d => products d !! "p1"%string)) in H.
    vm_compute in H. discriminate H.
  - exists header, token, decoded.
    split; [exact H1|]. split; [exact H2|]. split; [exact H3|exact H4].
Defined.

(** X18.  Deleting a product of the catalog removes that product and no
    other, leaves every cart as it is, and a second deletion answers 404
    without a change. *)
Theorem deleteProduct_removes pid db product :
  products db !! pid = Some product ->
  (deleteProduct pid db).2 = ProductRemoved
  /\ products (deleteProduct pid db).1 !! pid = None
  /\ (forall p, p <> pid ->
        products (deleteProduct pid db).1 !! p = products db !! p)
  /\ users (deleteProduct pid db).1 = users db
  /\ deleteProduct pid (deleteProduct pid db).1
       = ((deleteProduct pid db).1, ProductNotFound).
Proof.
  intros Hp.
  assert (E : deleteProduct pid db
              = ({| users := users db; products := delete pid (products db) |},
                 ProductRemoved)).
  { unfold deleteProduct. by rewrite Hp. }
  rewrite E. cbn [fst snd users products].
  split; [done|]. split; [apply lookup_delete_eq|]. split; [|split; [done|]].
  - intros p Hne. by apply lookup_delete_ne.
  - unfold deleteProduct. cbn [products]. by rewrite lookup_delete_eq.
Qed.

Lemma deleteProduct_removes_witness :
  products Examples.db3 !! "p1"%string = Some Examples.p1 /\
  products (deleteProduct "p1" Examples.db3).1 !! "p1"%string = None /\
  users (deleteProduct "p1" Examples.db3).1 = users Examples.db3.
Proof.
  assert (Hp : products Examples.db3 !! "p1"%string = Some Examples.p1) by reflexivity.
  split; [exact Hp|].
  destruct (deleteProduct_removes "p1" Examples.db3 Examples.p1 Hp)
    as (_ & H1 & _ & H2 & _).
  split; [exact H1|exact H2].
Defined.

(** A cart has a line for [p] exactly when [p] is among the products of its
    lines. *)
Lemma has_line p cart : ~ no_line p cart <-> p ∈ productId <$> cart.
Proof.
  rewrite no_line_existsb, Bool.not_false_iff_true, existsb_exists, list_elem_of_fmap.
  split.
  - intros (item & Hin & Hp). exists item. apply is_product_true in Hp.
    split; [done|]. by apply list_elem_of_In.
  - intros (item & -> & Hin). exists item. split; [by apply list_elem_of_In|].
    by apply is_product_true.
Qed.

(** Deleting the first line for another product keeps a line for [p]. *)
Lemma has_line_delete p pid i cart :
  pid <> p -> findIndex (is_product pid) cart = Some i ->
  ~ no_line p cart -> ~ no_line p (delete i cart).
Proof.
  intros Hne Hi. apply findIndex_Some in Hi as (l1 & x & l2 & -> & <- & Hx & _).
  apply is_product_true in Hx.
  assert (Ed : delete (length l1) (l1 ++ x :: l2) = l1 ++ l2).
  { clear. induction l1 as [|y l1 IH]; [done|]. cbn. f_equal. exact IH. }
  rewrite Ed, !has_line, !fmap_app, fmap_cons, !elem_of_app, elem_of_cons.
  intros [H|[H|H]]; [by left| |by right]. congruence.
Qed.

(** A request leaves a line for [p], a product the catalog does not have,
    in the cart of [u], unless it is the removal of [p] or the clearing of
    the cart by [u]. *)
Lemma handle_keeps_line v u r db p cart cart' :
  users db !! u = Some cart ->
  products db !! p = None ->
  ~ no_line p cart ->
  users (handle v r db).1 !! u = Some cart' ->
  no_line p cart' ->
  v = u /\ (r = RemoveFromCart p \/ r = ClearCart).
Proof.
  intros Hu Hp Hline Hu' Hno.
  assert (Hsame : (handle v r db).1 = db -> False).
  { intros E. rewrite E, Hu in Hu'. injection Hu' as <-. by apply Hline. }
  destruct (decide (v = u)) as [->|Hvu].
  2:{ destruct (handle_state v r db) as [E | (c0 & c & _ & _ & _ & E)].
      - by destruct (Hsame E).
      - rewrite E in Hu'. simpl in Hu'. rewrite lookup_insert_ne in Hu' by done.
        rewrite Hu in Hu'. injection Hu' as <-. by destruct Hline. }
  split; [done|].
  assert (Hstored : forall c, (handle u r db).1 = store u c db -> ~ no_line p c -> False).
  { intros c E Hc. rewrite E, store_lookup in Hu'. injection Hu' as <-. by apply Hc. }
  destruct r as [|pid quantity|pid quantity|pid|]; cbn [handle] in *.
  - exfalso. apply Hsame. unfold getCart. by destruct (users db !! u).
  - exfalso. revert Hsame Hstored. unfold addToCart.
    destruct pid as [pid|], quantity as [q|]; try (intros H _; by apply H).
    destruct (_ || _); [intros H _; by apply H|].
    rewrite Hu.
    destruct (products db !! pid) as [product|]; [|intros H _; by apply H].
    unfold add_body.
    destruct (add_map product pid q false cart) as [[found cart1]|[]] eqn:Em;
      simpl; try (intros H _; by apply H).
    pose proof (add_map_ids _ _ _ _ _ _ _ Em) as Hids.
    destruct found; simpl.
    + destruct (save u _ db) as [db1|[]] eqn:Es; simpl; try (intros H _; by apply H).
      apply save_Return in Es as [_ ->]. intros _ H. apply (H cart1); [done|].
      apply has_line. rewrite Hids. by apply has_line.
    + destruct (Num.ltb (stock product) q); simpl; [intros H _; by apply H|].
      destruct (save u _ db) as [db1|[]] eqn:Es; simpl; try (intros H _; by apply H).
      apply save_Return in Es as [_ ->]. intros _ H. eapply H; [done|].
      apply has_line. rewrite fmap_app, Hids, elem_of_app. left. by apply has_line.
  - exfalso. revert Hsame Hstored. unfold updateQuantity.
    destruct quantity as [q|]; [|intros H _; by apply H].
    destruct (Num.ltb q 0); [intros H _; by apply H|].
    rewrite Hu.
    destruct (findIndex (is_product pid) cart) as [i|] eqn:Ei; [|intros H _; by apply H].
    destruct (products db !! pid) as [product|] eqn:Epid; [|intros H _; by apply H].
    assert (Hne : pid <> p) by congruence.
    unfold update_body. destruct (Num.eqb q 0); simpl.
    + destruct (save u _ db) as [db1|[]] eqn:Es; simpl; try (intros H _; by apply H).
      apply save_Return in Es as [_ ->]. intros _ H. eapply H; [done|].
      by apply (has_line_delete p pid).
    + destruct (Num.ltb (stock product) q); simpl; [intros H _; by apply H|].
      destruct (save u _ db) as [db1|[]] eqn:Es; simpl; try (intros H _; by apply H).
      apply save_Return in Es as [_ ->]. intros _ H. eapply H; [done|].
      apply has_line. rewrite (list_fmap_alter productId (set_quantity q) id).
      * rewrite list_alter_id by done. by apply has_line.
      * by apply Forall_forall.
  - destruct (decide (pid = p)) as [->|Hne]; [by left|]. exfalso.
    revert Hsame Hstored. unfold removeFromCart. rewrite Hu. cbv zeta.
    destruct (save u _ db) as [db1|[]] eqn:Es; simpl; try (intros H _; by apply H).
    apply save_Return in Es as [_ ->]. intros _ H. eapply H; [done|].
    apply has_line in Hline. apply list_elem_of_fmap in Hline as (item & Hid & Hin).
    intros Hn. apply (Hn item); [|done].
    apply list_elem_of_filter. split; [congruence|done].
  - by right.
Qed.

(** X19.  After the deletion of a product, a cart line for it stays in the
    cart: the update handler changes nothing and answers an error for it
    whatever the body ([NotFound] for a quantity of 0 or above), the add
    handler never succeeds for it, and of all requests of all users only the
    removal of that product and the clearing of the cart, by the owner of the
    cart, leave the cart without a line for it; both do. *)
Theorem deleteProduct_leaves_lines db u p cart product :
  users db !! u = Some cart ->
  ~ no_line p cart ->
  cart_valid cart ->
  products db !! p = Some product ->
  let db' := (deleteProduct p db).1 in
  users db' !! u = Some cart
  /\ (forall q, (0 <= q)%Q ->
        updateQuantity u p (Some q) db' = (db', NotFound NoProduct))
  /\ (forall quantity,
        (addToCart u (Some p) quantity db').1 = db'
        /\ status (addToCart u (Some p) quantity db').2 <> 200)
  /\ users (removeFromCart u p db').1 !! u
       = Some (filter (fun item => productId item <> p) cart)
  /\ no_line p (filter (fun item => productId item <> p) cart)
  /\ (forall quantity,
        (updateQuantity u p quantity db').1 = db'
        /\ status (updateQuantity u p quantity db').2 <> 200)
  /\ users (clearCart u db').1 !! u = Some []
  /\ (forall v r cart',
        users (handle v r db').1 !! u = Some cart' ->
        no_line p cart' ->
        v = u /\ (r = RemoveFromCart p \/ r = ClearCart)).
Proof.
  intros Hu Hline Hv Hp db'.
  assert (E : db' = {| users := users db; products := delete p (products db) |}).
  { unfold db', deleteProduct. by rewrite Hp. }
  assert (Hu' : users db' !! u = Some cart) by by rewrite E.
  assert (Hp' : products db' !! p = None).
  { rewrite E. simpl. apply lookup_delete_eq. }
  assert (Hupd : forall q, (0 <= q)%Q ->
            updateQuantity u p (Some q) db' = (db', NotFound NoProduct)).
  { intros q Hq. unfold updateQuantity.
    apply NumFacts.ltb_ge in Hq. rewrite Hq, Hu'.
    destruct (findIndex (is_product p) cart) as [i|] eqn:Ei.
    + by rewrite Hp'.
    + destruct Hline. by apply no_line_is_product, findIndex_None. }
  split; [done|]. split; [exact Hupd|]. split; [|split; [|split; [|split; [|split]]]].
  - intros quantity. unfold addToCart. destruct quantity as [q|]; [|done].
    destruct (_ || _); [done|]. by rewrite Hu', Hp'.
  - rewrite (removeFromCart_valid db' u p cart Hu' Hv). apply store_lookup.
  - apply no_line_filter.
  - intros [q|]; [|done].
    destruct (Num.ltb q 0) eqn:Eq.
    + unfold updateQuantity. by rewrite Eq.
    + apply NumFacts.ltb_ge in Eq. by rewrite (Hupd q Eq).
  - unfold clearCart. rewrite Hu'. simpl. apply lookup_insert_eq.
  - intros v r cart'. by apply (handle_keeps_line v u r db' p cart cart').
Qed.

Lemma deleteProduct_leaves_lines_witness :
  users Hex.db3 !! "u"%string = Some [Examples.line Hex.p 3] /\
  users (deleteProduct Hex.p Hex.db3).1 !! "u"%string = Some [Examples.line Hex.p 3] /\
  updateQuantity "u" Hex.p (Some 0%Q) (deleteProduct Hex.p Hex.db3).1
    = ((deleteProduct Hex.p Hex.db3).1, NotFound NoProduct) /\
  users (removeFromCart "u" Hex.p (deleteProduct Hex.p Hex.db3).1).1 !! "u"%string
    = Some [] /\
  users (clearCart "u" (deleteProduct Hex.p Hex.db3).1).1 !! "u"%string = Some [].
Proof.
  assert (Hu : users Hex.db3 !! "u"%string = Some [Examples.line Hex.p 3])
    by reflexivity.
  assert (Hline : ~ no_line Hex.p [Examples.line Hex.p 3]).
  { intros Hno. by apply (Hno (Examples.line Hex.p 3)); [left|]. }
  assert (Hv : cart_valid [Examples.line Hex.p 3]).
  { apply Forall_singleton. discriminate. }
  assert (Hp : products Hex.db3 !! Hex.p = Some Examples.p1) by reflexivity.
  destruct (deleteProduct_leaves_lines Hex.db3 "u" Hex.p _ Examples.p1 Hu Hline Hv Hp)
    as (Hkeep & Hupd & _ & Hrem & _ & _ & Hclear & _).
  split; [exact Hu|]. split; [exact Hkeep|]. split; [|split].
  - apply Hupd. discriminate.
  - exact Hrem.
  - exact Hclear.
Defined.

End Routes.

(** ** The client: the cart view and the quantity selector *)

Section ClientView.

Implicit Types (db : Db) (cart : list CartItem) (item : CartItem).
Implicit Types (u p : string) (q : Q) (items : list Client.CartItem).

(** The view of a line has the product and the quantity of the line. *)
Lemma toCartItem_populate_item db item (i : Client.CartItem) :
  Client.toCartItem (populate_item db item) = Some i ->
  Client.id i = productId item /\ Client.quantity i = quantity item.
Proof.
  unfold Client.toCartItem, populate_item. cbn [product pquantity].
  destruct (products db !! productId item) as [[n s]|]; [|done].
  by intros [= <-].
Qed.

(** The cart view made of a populated cart has the products and the
    quantities of the cart, in order. *)
Lemma toCartItems_populate_Some db cart items :
  Client.toCartItems (populate db cart) = Some items ->
  Client.id <$> items = productId <$> cart
  /\ Client.quantity <$> items = quantity <$> cart.
Proof.
  unfold Client.toCartItems, populate. intros H.
  apply mapM_Some in H. apply Forall2_fmap_l in H.
  induction H as [|x i cart items Hx _ IH]; [done|].
  apply toCartItem_populate_item in Hx as [H1 H2].
  destruct IH as [IH1 IH2]. rewrite !fmap_cons. by rewrite H1, H2, IH1, IH2.
Qed.

(** X20.  The client can show the cart the cart handler answers exactly when
    the product of every line is in the catalog: then the view has the
    products and quantities of the stored cart in order; when one line has
    lost its product, the mapping throws and no view is made. *)
Theorem client_shows_cart db u cart :
  users db !! u = Some cart ->
  exists data,
    getCart u db = (db, Ok data)
    /\ (Forall (fun item => is_Some (products db !! productId item)) cart ->
        exists items,
          Client.toCartItems data = Some items
          /\ Client.id <$> items = productId <$> cart
          /\ Client.quantity <$> items = quantity <$> cart)
    /\ (Exists (fun item => products db !! productId item = None) cart ->
        Client.toCartItems data = None).
Proof.
  intros Hu. exists (populate db cart). split; [|split].
  - unfold getCart. by rewrite Hu.
  - intros Hall.
    assert (Hs : is_Some (Client.toCartItems (populate db cart))).
    { apply mapM_is_Some. unfold populate. rewrite Forall_fmap.
      eapply Forall_impl; [exact Hall|]. intros x [[n s] Hx]. simpl.
      unfold Client.toCartItem, populate_item. simpl. rewrite Hx. simpl. by eexists. }
    destruct Hs as [items Hi]. exists items. split; [done|].
    by apply toCartItems_populate_Some in Hi.
  - intros Hex. apply mapM_None. unfold populate. rewrite Exists_fmap.
    eapply Exists_impl; [exact Hex|]. intros x Hx. simpl.
    unfold Client.toCartItem, populate_item. simpl. by rewrite Hx.
Qed.

Lemma client_shows_cart_witness :
  (users Examples.db3 !! "u"%string = Some [Examples.line "p1" 3] /\
   exists data, getCart "u" Examples.db3 = (Examples.db3, Ok data)
     /\ is_Some (Client.toCartItems data))
  /\ (users Examples.db_dangling !! "u"%string = Some [Examples.line "p1" 3] /\
      exists data, getCart "u" Examples.db_dangling = (Examples.db_dangling, Ok data)
        /\ Client.toCartItems data = None).
Proof.
  split.
  - assert (Hu : users Examples.db3 !! "u"%string = Some [Examples.line "p1" 3])
      by reflexivity.
    split; [exact Hu|].
    destruct (client_shows_cart Examples.db3 "u" _ Hu) as (data & Hg & Hall & _).
    exists data. split; [exact Hg|].
    destruct Hall as (items & Hi & _).
    + apply Forall_singleton. by eexists.
    + by exists items.
  - assert (Hu : users Examples.db_dangling !! "u"%string = Some [Examples.line "p1" 3])
      by reflexivity.
    split; [exact Hu|].
    destruct (client_shows_cart Examples.db_dangling "u" _ Hu) as (data & Hg & _ & Hex).
    exists data. split; [exact Hg|]. apply Hex. by left.
Defined.

(** A total of at least 1, or the infinity above. *)
Lemma plus_positive (total : Client.Total) (quantity : Q) :
  match total with
  | Client.Finite t => (0 <= t)%Q
  | Client.PlusInfinity => True
  | Client.MinusInfinity => False
  end ->
  (1 <= quantity)%Q ->
  match Client.plus total quantity with
  | Client.Finite t => (1 <= t)%Q
  | Client.PlusInfinity => True
  | Client.MinusInfinity => False
  end.
Proof.
  destruct total as [t| |]; simpl; [|done..]. intros Ht Hq.
  destruct (Num.add t quantity) as [s|] eqn:E.
  - apply (NumFacts.round_ge_1 (t + quantity)); [lra|exact E].
  - assert (H : Num.ltb 0 (t + quantity) = true) by (apply NumFacts.ltb_lt; lra).
    by rewrite H.
Qed.

(** The running total of [getTotalCartItems] stays at 1 or above over items
    with a quantity of at least 1. *)
Lemma total_from items (acc : Client.Total) :
  Forall (fun i => (1 <= Client.quantity i)%Q) items ->
  match acc with
  | Client.Finite t => (1 <= t)%Q
  | Client.PlusInfinity => True
  | Client.MinusInfinity => False
  end ->
  match fold_left (fun total i => Client.plus total (Client.quantity i)) items acc with
  | Client.Finite t => (1 <= t)%Q
  | Client.PlusInfinity => True
  | Client.MinusInfinity => False
  end.
Proof.
  intros H. revert acc. induction H as [|x items Hx _ IH]; intros acc Hacc; simpl.
  - exact Hacc.
  - apply IH. apply plus_positive; [|exact Hx].
    destruct acc as [t| |]; [lra|done..].
Qed.

(** X21.  For the view of a cart that satisfies the schema,
    [getTotalCartItems] is 0 for the empty cart and at least 1 (a number or
    the infinity above) otherwise: the badge of the cart link in the header,
    rendered when [getTotalCartItems() > 0], is rendered exactly when the
    cart has a line. *)
Theorem total_zero_iff_empty db cart items :
  cart_valid cart ->
  Client.toCartItems (populate db cart) = Some items ->
  (cart = [] -> Client.getTotalCartItems items = Client.Finite 0)
  /\ (cart <> [] ->
        match Client.getTotalCartItems items with
        | Client.Finite t => (1 <= t)%Q
        | Client.PlusInfinity => True
        | Client.MinusInfinity => False
        end)
  /\ (Client.badge items = true <-> cart <> []).
Proof.
  intros Hv Hi.
  destruct (toCartItems_populate_Some db cart items Hi) as [_ Hq].
  assert (Hvi : Forall (fun i => (1 <= Client.quantity i)%Q) items).
  { apply Forall_forall. intros i Hin.
    apply (list_elem_of_fmap_2 Client.quantity) in Hin. rewrite Hq in Hin.
    apply list_elem_of_fmap in Hin as (x & -> & Hx).
    unfold cart_valid in Hv. rewrite Forall_forall in Hv. by apply Hv. }
  assert (He : cart = [] -> Client.getTotalCartItems items = Client.Finite 0).
  { intros ->. simpl in Hq. by apply fmap_nil_inv in Hq as ->. }
  assert (Hne : cart <> [] ->
            match Client.getTotalCartItems items with
            | Client.Finite t => (1 <= t)%Q
            | Client.PlusInfinity => True
            | Client.MinusInfinity => False
            end).
  { intros Hc. destruct items as [|x items].
    - destruct cart; [done|]. by apply (f_equal length) in Hq.
    - unfold Client.getTotalCartItems. simpl.
      apply Forall_cons in Hvi as [Hx Hrest].
      apply total_from; [exact Hrest|].
      apply (plus_positive (Client.Finite 0)); [apply Qle_refl|exact Hx]. }
  split; [exact He|]. split; [exact Hne|]. unfold Client.badge. split.
  - intros Hb ->. by rewrite He in Hb.
  - intros Hc. specialize (Hne Hc).
    destruct (Client.getTotalCartItems items) as [t| |]; [|done..].
    apply NumFacts.ltb_lt. lra.
Qed.

Lemma total_zero_iff_empty_witness :
  cart_valid [Examples.line "p1" 3] /\
  Client.badge [{| Client.id := "p1"; Client.name := "p1"; Client.stock := 5;
                   Client.quantity := 3 |}] = true.
Proof.
  assert (Hv : cart_valid [Examples.line "p1" 3]).
  { apply Forall_singleton. discriminate. }
  split; [exact Hv|].
  apply (proj2 (proj2 (total_zero_iff_empty Examples.db3 _ _ Hv eq_refl))). discriminate.
Defined.

(** A click keeps the quantity of the selector at 1 or above, and within a
    stock of 1 or above. *)
Lemma click_range (stock quantity : Q) (c : Client.Click) :
  (1 <= quantity)%Q /\ ((1 <= stock)%Q -> (quantity <= stock)%Q) ->
  (1 <= Client.click stock quantity c)%Q
  /\ ((1 <= stock)%Q -> (Client.click stock quantity c <= stock)%Q).
Proof.
  intros [H1 H2]. destruct c; simpl.
  - unfold Client.max. destruct (Num.ltb 1 (quantity - 1)) eqn:E.
    + apply NumFacts.ltb_lt in E. split; [lra|]. intros Hs. specialize (H2 Hs). lra.
    + split; [lra|]. intros Hs. lra.
  - unfold Client.plusDisabled. destruct (Num.leb stock quantity) eqn:Ed; [done|].
    apply NumFacts.leb_gt in Ed. unfold Client.min.
    destruct (Num.ltb (quantity + 1) stock) eqn:E.
    + apply NumFacts.ltb_lt in E. split; [lra|]. intros _. lra.
    + split; [lra|]. intros _. lra.
Qed.

Lemma clicks_range (stock : Q) (cs : list Client.Click) :
  (1 <= Client.clicks stock cs)%Q
  /\ ((1 <= stock)%Q -> (Client.clicks stock cs <= stock)%Q).
Proof.
  unfold Client.clicks.
  assert (H : forall quantity,
            (1 <= quantity)%Q /\ ((1 <= stock)%Q -> (quantity <= stock)%Q) ->
            (1 <= fold_left (Client.click stock) cs quantity)%Q
            /\ ((1 <= stock)%Q ->
                (fold_left (Client.click stock) cs quantity <= stock)%Q)).
  { induction cs as [|c cs IH]; intros quantity Hq; simpl; [done|].
    apply IH. by apply click_range. }
  apply H. split; [lra|]. intros Hs. lra.
Qed.

(** X22.  Whatever buttons of the quantity selector are clicked, the
    quantity is at least 1, and at most the stock when the stock is at
    least 1; the 'Add to Cart' button is enabled exactly when the stock is
    at least 1. *)
Theorem selector_range (stock : Q) (cs : list Client.Click) :
  (1 <= Client.clicks stock cs)%Q
  /\ ((1 <= stock)%Q -> (Client.clicks stock cs <= stock)%Q)
  /\ (Client.addDisabled stock (Client.clicks stock cs) = false <-> (1 <= stock)%Q).
Proof.
  destruct (clicks_range stock cs) as [H1 H2].
  split; [done|]. split; [done|].
  unfold Client.addDisabled. rewrite orb_false_iff. split.
  - intros [_ Hl]. apply NumFacts.ltb_ge in Hl. lra.
  - intros Hs. split.
    + destruct (Num.eqb stock 0) eqn:E; [|done].
      apply NumFacts.eqb_eq in E. lra.
    + apply NumFacts.ltb_ge. by apply H2.
Qed.

(** X23.  When the 'Add to Cart' button is enabled, the quantity the
    selector holds is accepted by the add handler for a product of that
    stock that the cart, satisfying the schema, does not have yet: a new
    line with that quantity is stored. *)
Theorem selector_add_accepted db u p product cart (cs : list Client.Click) :
  users db !! u = Some cart ->
  products db !! p = Some product ->
  p <> ""%string ->
  cart_valid cart ->
  no_line p cart ->
  Client.addDisabled (stock product) (Client.clicks (stock product) cs) = false ->
  addToCart u (Some p) (Some (Client.clicks (stock product) cs)) db
    = (store u (cart ++ [{| productId := p;
                            quantity := Client.clicks (stock product) cs |}]) db,
       Ok (populate db (cart ++ [{| productId := p;
                                    quantity := Client.clicks (stock product) cs |}]))).
Proof.
  intros Hu Hp Hne Hv Hno Hen.
  destruct (clicks_range (stock product) cs) as [H1 H2].
  apply (addToCart_push db u p _ product cart); try done.
  unfold Client.addDisabled in Hen. apply orb_false_iff in Hen as [_ Hl].
  by apply NumFacts.ltb_ge in Hl.
Qed.

Lemma selector_add_accepted_witness :
  users Examples.db0 !! "u"%string = Some [] /\
  users (addToCart "u" (Some "p1"%string)
           (Some (Client.clicks (stock Examples.p1)
                    [Client.Plus; Client.Plus; Client.Minus]))
           Examples.db0).1 !! "u"%string
    = Some [Examples.line "p1" 2].
Proof.
  assert (Hu : users Examples.db0 !! "u"%string = Some []) by reflexivity.
  split; [exact Hu|].
  rewrite (selector_add_accepted Examples.db0 "u" "p1" Examples.p1 []
             [Client.Plus; Client.Plus; Client.Minus] Hu).
  - reflexivity.
  - reflexivity.
  - discriminate.
  - apply Forall_nil_2.
  - intros item Hin. by apply elem_of_nil in Hin.
  - reflexivity.
Defined.

End ClientView.
